(** * The blog of day 69: users, posts, comments and the admin gate

    A shallow embedding of [day_69_adding_users_to_blog/main.py].  The Flask
    views become functions from a request and a [World] (the rows of
    [blog.db], the unit of work of [db.session], the login cookie and the
    flashed messages) to an outcome and a new world.  The password hashing
    the views call into ([werkzeug.security] over [hashlib]) is modelled
    down to SHA-256, so that hashes can be computed and compared. *)

From Stdlib Require Import List String Ascii NArith PeanoNat Bool Lia.
From Stdlib Require Import DecimalString DecimalN.
Import ListNotations.
Open Scope string_scope.
Open Scope list_scope.

(** ** hashlib: SHA-256, HMAC and PBKDF2 (FIPS 180-4, RFC 2104, RFC 8018) *)

Module Hashlib.

Local Open Scope N_scope.

(** A byte is a number below 256; a 32-bit word is a number below 2^32. *)
Definition bytes := list N.

(** [str.encode("utf-8")]: a [string] here is the sequence of the encoded
    bytes already. *)
Definition encode (s : string) : bytes :=
  map N_of_ascii (list_ascii_of_string s).

Definition mask32 : N := 0xFFFFFFFF.
Definition add32 (a b : N) : N := N.land (a + b) mask32.
Definition rotr (n x : N) : N :=
  N.lor (N.shiftr x n) (N.land (N.shiftl x (32 - n)) mask32).
Definition shr (n x : N) : N := N.shiftr x n.
Definition not32 (x : N) : N := N.lxor x mask32.

Definition Ch (x y z : N) : N := N.lxor (N.land x y) (N.land (not32 x) z).
Definition Maj (x y z : N) : N :=
  N.lxor (N.lxor (N.land x y) (N.land x z)) (N.land y z).
Definition Sigma0 (x : N) : N :=
  N.lxor (N.lxor (rotr 2 x) (rotr 13 x)) (rotr 22 x).
Definition Sigma1 (x : N) : N :=
  N.lxor (N.lxor (rotr 6 x) (rotr 11 x)) (rotr 25 x).
Definition sigma0 (x : N) : N :=
  N.lxor (N.lxor (rotr 7 x) (rotr 18 x)) (shr 3 x).
Definition sigma1 (x : N) : N :=
  N.lxor (N.lxor (rotr 17 x) (rotr 19 x)) (shr 10 x).

(** The constants of SHA-256 are the first 32 bits of the fractional parts
    of the cube roots (for the rounds) and of the square roots (for the
    initial hash value) of the first primes. *)

Definition is_prime (n : nat) : bool :=
  forallb (fun d => negb (Nat.eqb (Nat.modulo n d) 0)) (seq 2 (n - 2)).

Definition primes (below : nat) : list N :=
  map N.of_nat (filter is_prime (seq 2 (below - 2))).

(** The largest [r] with [r ^ k <= x], found bit by bit from [bits] down. *)
Fixpoint root (k : N) (bits : nat) (x r : N) : N :=
  match bits with
  | O => r
  | S b =>
      let r' := N.lor r (N.shiftl 1 (N.of_nat b)) in
      root k b x (if r' ^ k <=? x then r' else r)
  end.

Definition fractional_root (k p : N) : N :=
  N.land (root k 40 (N.shiftl p (32 * k)) 0) mask32.

Definition K256 : list N := map (fractional_root 3) (primes 312).

Definition H256 : list N := map (fractional_root 2) (primes 20).

(** The [n] low bytes of [x], most significant first. *)
Fixpoint be_bytes (n : nat) (x : N) : bytes :=
  match n with
  | O => []
  | S k => N.land (N.shiftr x (8 * N.of_nat k)) 0xFF :: be_bytes k x
  end.

Definition be_word (bs : bytes) : N :=
  fold_left (fun acc b => acc * 256 + b) bs 0.

Fixpoint chunks {A : Type} (fuel size : nat) (l : list A) : list (list A) :=
  match fuel, l with
  | O, _ | _, [] => []
  | S f, _ => firstn size l :: chunks f size (skipn size l)
  end.

(** Padding: a 1 bit, zeros up to 56 modulo 64, the length in bits on 8 bytes. *)
Definition pad (m : bytes) : bytes :=
  let len := N.of_nat (List.length m) in
  let zeros := N.to_nat ((119 - len mod 64) mod 64) in
  m ++ 0x80 :: repeat 0 zeros ++ be_bytes 8 (8 * len).

(** The message schedule; [w] holds the words computed so far, newest first. *)
Fixpoint schedule (n : nat) (w : list N) : list N :=
  match n with
  | O => w
  | S k =>
      let new := add32 (add32 (sigma1 (nth 1 w 0)) (nth 6 w 0))
                       (add32 (sigma0 (nth 14 w 0)) (nth 15 w 0)) in
      schedule k (new :: w)
  end.

Definition round (s : list N) (kw : N * N) : list N :=
  match s with
  | [a; b; c; d; e; f; g; h] =>
      let t1 := add32 (add32 (add32 h (Sigma1 e)) (add32 (Ch e f g) (fst kw)))
                      (snd kw) in
      let t2 := add32 (Sigma0 a) (Maj a b c) in
      [add32 t1 t2; a; b; c; add32 d t1; e; f; g]
  | _ => s
  end.

Definition compress (h : list N) (block : bytes) : list N :=
  let w16 := map be_word (chunks 16 4 block) in
  let w := rev (schedule 48 (rev w16)) in
  let s := fold_left round (combine K256 w) h in
  map (fun p => add32 (fst p) (snd p)) (combine h s).

Definition sha256 (m : bytes) : bytes :=
  let p := pad m in
  let h := fold_left compress (chunks (List.length p) 64 p) H256 in
  flat_map (be_bytes 4) h.

Definition hex_digit (n : N) : ascii :=
  ascii_of_N (if n <? 10 then 48 + n else 87 + n).

(** [bytes.hex()] *)
Fixpoint hex (bs : bytes) : string :=
  match bs with
  | [] => EmptyString
  | b :: r => String (hex_digit (b / 16)) (String (hex_digit (b mod 16)) (hex r))
  end.

Definition block_size : nat := 64.

(** The key HMAC works with: a key longer than a block is hashed first, and
    the result is filled with zero bytes up to the block size. *)
Definition hmac_key (key : bytes) : bytes :=
  let k := if Nat.ltb block_size (List.length key) then sha256 key else key in
  k ++ repeat 0 (block_size - List.length k).

Definition hmac_sha256 (key msg : bytes) : bytes :=
  let k := hmac_key key in
  sha256 (map (N.lxor 0x5c) k ++ sha256 (map (N.lxor 0x36) k ++ msg)).

Definition xor_bytes (a b : bytes) : bytes :=
  map (fun p => N.lxor (fst p) (snd p)) (combine a b).

(** [hashlib.pbkdf2_hmac("sha256", password, salt, iterations)] with the
    default [dklen], the digest size: the one block T1 = U1 xor ... xor Uc. *)
Definition pbkdf2_hmac_sha256 (password salt : bytes) (iterations : N) : bytes :=
  let u1 := hmac_sha256 password (salt ++ be_bytes 4 1) in
  fst (N.iter (iterations - 1)
         (fun tu =>
            let u := hmac_sha256 password (snd tu) in
            (xor_bytes (fst tu) u, u))
         (u1, u1)).

End Hashlib.

(** ** werkzeug.security *)

Module Security.

Import Hashlib.
Local Open Scope string_scope.

(** [s.partition(sep)] for a one-character separator: the text before the
    first [sep], and the text after it when there is one. *)
Fixpoint partition (sep : ascii) (s : string) : string * option string :=
  match s with
  | EmptyString => (EmptyString, None)
  | String c r =>
      if Ascii.eqb c sep then (EmptyString, Some r)
      else let (h, t) := partition sep r in (String c h, t)
  end.

(** [s.split(sep, maxsplit)] *)
Fixpoint split (sep : ascii) (maxsplit : nat) (s : string) : list string :=
  match maxsplit with
  | O => [s]
  | S n =>
      match partition sep s with
      | (h, None) => [h]
      | (h, Some t) => h :: split sep n t
      end
  end.

(** [s.count(c)] *)
Fixpoint count (c : ascii) (s : string) : nat :=
  match s with
  | EmptyString => 0
  | String d r => (if Ascii.eqb d c then 1 else 0) + count c r
  end.

(** [str(n)] and [int(s)] for a count of iterations.  [int] is modelled on
    strings of decimal digits, the form [generate_password_hash] writes. *)
Definition str_of_N (n : N) : string := NilEmpty.string_of_uint (N.to_uint n).
Definition int_of_str (s : string) : option N :=
  option_map N.of_uint (NilEmpty.uint_of_string s).

(** [_hash_internal(method, salt, password)]: the digest in hex and the
    method as it is stored.  Only the branch this program uses is modelled,
    [pbkdf2:sha256] with an optional count of iterations; [None] stands for
    the [ValueError]s of that branch and for every other method. *)
Definition _hash_internal (DEFAULT_PBKDF2_ITERATIONS : N)
    (method salt password : string) : option (string * string) :=
  if prefix "pbkdf2:" method then
    if String.eqb salt "" then None
    else
      let args := split ":" (String.length method)
                    (substring 7 (String.length method - 7) method) in
      let run (iterations : option N) :=
        match iterations with
        | Some (Npos c) =>
            Some (hex (pbkdf2_hmac_sha256 (encode password) (encode salt) (Npos c)),
                  "pbkdf2:sha256:" ++ str_of_N (Npos c))
        | _ => None
        end in
      match args with
      | ["sha256"] => run (Some DEFAULT_PBKDF2_ITERATIONS)
      | ["sha256"; n] => run (int_of_str n)
      | _ => None
      end
  else None.

(** [generate_password_hash(password, method, salt_length)]; [salt] is the
    draw of [gen_salt(salt_length)]. *)
Definition generate_password_hash (DEFAULT_PBKDF2_ITERATIONS : N)
    (salt password method : string) : option string :=
  match _hash_internal DEFAULT_PBKDF2_ITERATIONS method salt password with
  | Some (h, actual_method) => Some (actual_method ++ "$" ++ salt ++ "$" ++ h)
  | None => None
  end.

(** [check_password_hash(pwhash, password)]; [hmac.compare_digest] is string
    equality.  [None] when [_hash_internal] is outside the model. *)
Definition check_password_hash (DEFAULT_PBKDF2_ITERATIONS : N)
    (pwhash password : string) : option bool :=
  if Nat.ltb (count "$" pwhash) 2 then Some false
  else
    match split "$" 2 pwhash with
    | [method; salt; hashval] =>
        match _hash_internal DEFAULT_PBKDF2_ITERATIONS method salt password with
        | Some (h, _) => Some (String.eqb h hashval)
        | None => None
        end
    | _ => Some false
    end.

(** [SALT_CHARS]: what [gen_salt] draws from. *)
Definition salt_char (c : ascii) : bool :=
  let n := nat_of_ascii c in
  ((48 <=? n) && (n <=? 57) || (65 <=? n) && (n <=? 90)
   || (97 <=? n) && (n <=? 122))%nat.

Fixpoint salt_chars (s : string) : bool :=
  match s with
  | EmptyString => true
  | String c r => salt_char c && salt_chars r
  end.

(** A draw of [gen_salt(8)]. *)
Definition is_salt (s : string) : bool :=
  Nat.eqb (String.length s) 8 && salt_chars s.

End Security.

(** ** The blog *)

Module Blog.

Local Open Scope string_scope.

(** *** Tables ([db.Model] classes)

    A foreign key column is nullable, as none of them is declared
    [nullable=False]: [None] is SQL NULL. *)

Record User : Type := mkUser {
  user_id : nat;
  user_email : string;
  user_password : string;
  user_name : string
}.

Record BlogPost : Type := mkBlogPost {
  post_id : nat;
  post_author_id : option nat;
  post_title : string;
  post_subtitle : string;
  post_date : string;
  post_body : string;
  post_img_url : string
}.

Record Comment : Type := mkComment {
  comment_id : nat;
  comment_text : string;
  comment_author_id : option nat;
  comment_post_id : option nat
}.

(** The rows of [blog.db], each table in the order of insertion. *)
Record Database : Type := mkDatabase {
  users : list User;
  blog_posts : list BlogPost;
  comments : list Comment
}.

Definition empty_db : Database := mkDatabase [] [] [].

(** *** Queries *)

(** [User.query.get(id)] *)
Definition User_get (id : nat) (d : Database) : option User :=
  find (fun u => Nat.eqb (user_id u) id) (users d).

(** [User.query.filter_by(email=email).first()] *)
Definition User_by_email (email : string) (d : Database) : option User :=
  find (fun u => String.eqb (user_email u) email) (users d).

(** [BlogPost.query.get(post_id)] *)
Definition BlogPost_get (id : nat) (d : Database) : option BlogPost :=
  find (fun p => Nat.eqb (post_id p) id) (blog_posts d).

(** An integer primary key without a value: SQLite gives the largest rowid
    of the table plus one. *)
Definition next_id (ids : list nat) : nat := S (list_max ids).

(** An INTEGER of SQLite is a signed number of 64 bits: the ids below 2^63
    are those a row can have, and those a statement can take as a
    parameter. *)
Definition sqlite_integer (id : nat) : bool := Nat.ltb id (2 ^ 63).
Arguments sqlite_integer : simpl never.

(** *** Exceptions and outcomes *)

Inductive Exn : Type :=
| HTTPException (code : nat)               (* abort(code) *)
| AttributeError (type_name attr : string)
| IntegrityError (constraint : string)     (* sqlalchemy.exc *)
| UnmappedInstanceError (type_name : string)
| StaleDataError
| ValueError (what : string)
| OverflowError.                           (* sqlite3, binding a parameter *)

Inductive result (A : Type) : Type :=
| Ok (a : A)
| Raise (e : Exn).
Arguments Ok {A} a.
Arguments Raise {A} e.

(** *** The unit of work of [db.session] *)

(** A value a form field may hold when it is assigned to a relationship. *)
Inductive PyValue : Type :=
| PyNone
| PyStr (s : string)
| PyUser (u : User).

Inductive PostAttr : Type :=
| Title (s : string)
| Subtitle (s : string)
| ImgUrl (s : string)
| Author (u : option User)
| Body (s : string).

(** What the session holds until [commit]: objects given to [add], with the
    keyword arguments of their constructor; attributes set on a loaded post;
    objects given to [delete]. *)
Inductive Change : Type :=
| InsertUser (email password name : string)
| InsertPost (title subtitle body img_url : string) (author : User)
             (date : string)
| InsertComment (text : string) (author : User) (author_id : nat)
                (post : option BlogPost) (post_id : nat)
| UpdatePost (id : nat) (a : PostAttr)
| DeletePost (id : nat).

Definition set_attr (a : PostAttr) (p : BlogPost) : BlogPost :=
  match a with
  | Title s =>
      mkBlogPost (post_id p) (post_author_id p) s (post_subtitle p)
                 (post_date p) (post_body p) (post_img_url p)
  | Subtitle s =>
      mkBlogPost (post_id p) (post_author_id p) (post_title p) s
                 (post_date p) (post_body p) (post_img_url p)
  | ImgUrl s =>
      mkBlogPost (post_id p) (post_author_id p) (post_title p)
                 (post_subtitle p) (post_date p) (post_body p) s
  | Author u =>
      mkBlogPost (post_id p) (option_map user_id u) (post_title p)
                 (post_subtitle p) (post_date p) (post_body p) (post_img_url p)
  | Body s =>
      mkBlogPost (post_id p) (post_author_id p) (post_title p)
                 (post_subtitle p) (post_date p) s (post_img_url p)
  end.

(** A title another row of [blog_posts] already has ([unique=True]). *)
Definition title_taken (t : string) (but : option nat) (d : Database) : bool :=
  existsb (fun p => String.eqb (post_title p) t
                    && match but with
                       | Some id => negb (Nat.eqb (post_id p) id)
                       | None => true
                       end)
          (blog_posts d).

Definition email_taken (e : string) (d : Database) : bool :=
  existsb (fun u => String.eqb (user_email u) e) (users d).

(** The comments of a deleted post are kept, their [post_id] set to NULL:
    [BlogPost.comments] has no delete cascade. *)
Definition orphan (id : nat) (c : Comment) : Comment :=
  match comment_post_id c with
  | Some p =>
      if Nat.eqb p id
      then mkComment (comment_id c) (comment_text c) (comment_author_id c) None
      else c
  | None => c
  end.

(** One change written to the database at flush.  A many-to-one relationship
    that was assigned decides the foreign key column next to it: [author_id]
    is the id of [author], [post_id] the id of [post], and NULL when [post]
    is [None], whatever the [post_id] keyword said.  The second component is
    the primary key given to an inserted row. *)
Definition apply_change (c : Change) (d : Database)
  : result (Database * option nat) :=
  match c with
  | InsertUser email password name =>
      if email_taken email d then Raise (IntegrityError "users.email")
      else
        let id := next_id (map user_id (users d)) in
        Ok (mkDatabase (users d ++ [mkUser id email password name])
                       (blog_posts d) (comments d), Some id)
  | InsertPost title subtitle body img_url author date =>
      if title_taken title None d then Raise (IntegrityError "blog_posts.title")
      else
        let id := next_id (map post_id (blog_posts d)) in
        Ok (mkDatabase (users d)
              (blog_posts d ++ [mkBlogPost id (Some (user_id author)) title
                                           subtitle date body img_url])
              (comments d), Some id)
  | InsertComment text author _ post _ =>
      let id := next_id (map comment_id (comments d)) in
      Ok (mkDatabase (users d) (blog_posts d)
            (comments d ++ [mkComment id text (Some (user_id author))
                                      (option_map post_id post)]), Some id)
  | UpdatePost id a =>
      match BlogPost_get id d with
      | None => Raise StaleDataError
      | Some _ =>
          let clash := match a with
                       | Title t => title_taken t (Some id) d
                       | _ => false
                       end in
          if clash then Raise (IntegrityError "blog_posts.title")
          else
            Ok (mkDatabase (users d)
                  (map (fun p => if Nat.eqb (post_id p) id then set_attr a p
                                 else p) (blog_posts d))
                  (comments d), None)
      end
  | DeletePost id =>
      Ok (mkDatabase (users d)
            (filter (fun p => negb (Nat.eqb (post_id p) id)) (blog_posts d))
            (map (orphan id) (comments d)), None)
  end.

(** The changes of the session in order; the first error ends the flush. *)
Fixpoint flush (cs : list Change) (d : Database)
  : result (Database * list nat) :=
  match cs with
  | [] => Ok (d, [])
  | c :: rest =>
      match apply_change c d with
      | Raise e => Raise e
      | Ok (d1, k) =>
          match flush rest d1 with
          | Raise e => Raise e
          | Ok (d2, ks) =>
              Ok (d2, match k with Some i => i :: ks | None => ks end)
          end
      end
  end.

(** *** The world of a request *)

(** What lasts from one request to the next: the database, the user id in
    the login cookie, and the flashed messages. *)
Record World : Type := mkWorld {
  db : Database;
  login_id : option nat;
  flashed : list string
}.

(** A request in progress: the world and the changes not yet committed. *)
Record Ctx : Type := mkCtx {
  world : World;
  pending : list Change
}.

Definition View (A : Type) : Type := Ctx -> result A * Ctx.

Definition ret {A : Type} (a : A) : View A := fun c => (Ok a, c).

Definition bind {A B : Type} (m : View A) (k : A -> View B) : View B :=
  fun c => match m c with
           | (Ok a, c1) => k a c1
           | (Raise e, c1) => (Raise e, c1)
           end.

Definition raise {A : Type} (e : Exn) : View A := fun c => (Raise e, c).

Declare Scope view_scope.
Delimit Scope view_scope with view.
Notation "x <- m ;; k" := (bind m (fun x => k))
  (at level 100, m at next level, right associativity) : view_scope.
Notation "m ;; k" := (bind m (fun _ => k))
  (at level 100, right associativity) : view_scope.
Local Open Scope view_scope.

(** A query reads the committed rows; every query of this program runs
    while the session holds no change. *)
Definition query {A : Type} (q : Database -> A) : View A :=
  fun c => (Ok (q (db (world c))), c).

(** [BlogPost.query.get(post_id)] in a view, where [post_id] is whatever
    number the URL carries: the row with that id, and [None] when no row has
    it.  The id is bound as a parameter of the SELECT; no row has an id that
    is not an INTEGER of SQLite, and binding such an id raises the
    [OverflowError] of sqlite3, which the query does not catch. *)
Definition BlogPost_query_get (post_id : nat) : View (option BlogPost) :=
  post <- query (BlogPost_get post_id) ;;
  match post with
  | Some p => ret (Some p)
  | None => if sqlite_integer post_id then ret None else raise OverflowError
  end.

(** [db.session.add(obj)], an attribute set on a loaded object, and
    [db.session.delete(obj)] on a mapped object. *)
Definition session_add (ch : Change) : View unit :=
  fun c => (Ok tt, mkCtx (world c) (pending c ++ [ch])).

(** [db.session.commit()]: all the changes or none; the result is the list of
    the primary keys of the inserted rows, which the session writes back
    into the objects. *)
Definition commit : View (list nat) :=
  fun c =>
    match flush (pending c) (db (world c)) with
    | Ok (d, ks) =>
        (Ok ks, mkCtx (mkWorld d (login_id (world c)) (flashed (world c))) [])
    | Raise e => (Raise e, mkCtx (world c) [])
    end.

(** [flash(message)] *)
Definition flash (msg : string) : View unit :=
  fun c => (Ok tt, mkCtx (mkWorld (db (world c)) (login_id (world c))
                                  (flashed (world c) ++ [msg]))
                         (pending c)).

(** [abort(code)] *)
Definition abort {A : Type} (code : nat) : View A := raise (HTTPException code).

(** *** flask_login *)

(** [current_user]: the row [load_user] finds for the id of the cookie, and
    an [AnonymousUserMixin] when there is no cookie or no such row.
    [current_user.is_authenticated] holds of the first and not of the
    second. *)
Inductive CurrentUser : Type :=
| AnonymousUserMixin
| LoggedIn (u : User).

(** [load_user(id)] *)
Definition load_user (id : nat) (d : Database) : option User := User_get id d.

Definition current_user_of (w : World) : CurrentUser :=
  match login_id w with
  | None => AnonymousUserMixin
  | Some id =>
      match load_user id (db w) with
      | Some u => LoggedIn u
      | None => AnonymousUserMixin
      end
  end.

Definition current_user : View CurrentUser :=
  fun c => (Ok (current_user_of (world c)), c).

(** [current_user.id]: [AnonymousUserMixin] has the properties
    [is_authenticated], [is_active] and [is_anonymous] and the method
    [get_id], and no attribute [id]. *)
Definition current_user_id : View nat :=
  cu <- current_user ;;
  match cu with
  | LoggedIn u => ret (user_id u)
  | AnonymousUserMixin => raise (AttributeError "AnonymousUserMixin" "id")
  end.

(** [login_user(user)] with the id the user has in the database. *)
Definition login_user (id : nat) : View unit :=
  fun c => (Ok tt, mkCtx (mkWorld (db (world c)) (Some id) (flashed (world c)))
                         (pending c)).

(** [logout_user()] *)
Definition logout_user : View unit :=
  fun c => (Ok tt, mkCtx (mkWorld (db (world c)) None (flashed (world c)))
                         (pending c)).

(** *** Forms and requests

    [forms.py] is not among the sources.  A form is the data of its fields;
    whether a submitted form passes its validators is an input of the
    request. *)

Record RegisterForm : Type := mkRegisterForm {
  register_email : string;
  register_password : string;
  register_name : string
}.

Record LoginForm : Type := mkLoginForm {
  login_email : string;
  login_password : string
}.

Record CommentForm : Type := mkCommentForm {
  comment_body : string
}.

(** [edit_post] reads a field [author] of [CreatePostForm]; [None] when the
    class has no such field. *)
Record CreatePostForm : Type := mkCreatePostForm {
  form_title : string;
  form_subtitle : string;
  form_img_url : string;
  form_author : option PyValue;
  form_body : string
}.

Inductive Request (F : Type) : Type :=
| GET
| POST (data : F) (validates : bool).
Arguments GET {F}.
Arguments POST {F} data validates.

(** [form.validate_on_submit()]: the data when the request submits a form
    that validates. *)
Definition validate_on_submit {F : Type} (r : Request F) : option F :=
  match r with
  | POST data true => Some data
  | _ => None
  end.

(** *** Responses *)

Inductive TemplateArgs : Type :=
| NoArgs
| WithForm
| AllPosts (all_posts : list BlogPost)
| PostPage (post : option BlogPost) (all_comments : list Comment).

Inductive Response : Type :=
| Redirect (endpoint : string) (post_id : option nat)
| Render (template : string) (args : TemplateArgs).

(** *** [date.today().strftime("%B %d, %Y")] *)

Record Date : Type := mkDate { year : nat; month : nat; day : nat }.

Definition str_of_nat (n : nat) : string :=
  NilEmpty.string_of_uint (Nat.to_uint n).

Definition month_name (m : nat) : string :=
  match m with
  | O => ""
  | S k =>
      nth k ["January"; "February"; "March"; "April"; "May"; "June"; "July";
             "August"; "September"; "October"; "November"; "December"] ""
  end.

Definition strftime_B_d_Y (d : Date) : string :=
  month_name (month d) ++ " "
  ++ (if Nat.ltb (day d) 10 then "0" else "") ++ str_of_nat (day d) ++ ", "
  ++ str_of_nat (year d).

(** *** Views *)

Section Views.

(** [werkzeug.security.DEFAULT_PBKDF2_ITERATIONS], which depends on the
    version of the library. *)
Variable DEFAULT_PBKDF2_ITERATIONS : N.

(** [@admin_only] *)
Definition admin_only {A : Type} (f : View A) : View A :=
  id <- current_user_id ;;
  if negb (Nat.eqb id 1) then abort 403 else f.

(** [get_all_posts], route "/" *)
Definition get_all_posts : View Response :=
  posts <- query blog_posts ;;
  ret (Render "index.html" (AllPosts posts)).

(** [register], route "/register"; [salt] is what [gen_salt] draws. *)
Definition register (req : Request RegisterForm) (salt : string)
  : View Response :=
  match validate_on_submit req with
  | Some form =>
      let email := register_email form in
      user <- query (User_by_email email) ;;
      match user with
      | Some _ =>
          flash "Email already exists! Please login instead." ;;
          ret (Redirect "login" None)
      | None =>
          match Security.generate_password_hash DEFAULT_PBKDF2_ITERATIONS salt
                  (register_password form) "pbkdf2:sha256" with
          | None => raise (ValueError "generate_password_hash")
          | Some password =>
              session_add (InsertUser email password (register_name form)) ;;
              ids <- commit ;;
              login_user (hd 0 ids) ;;
              ret (Redirect "get_all_posts" None)
          end
      end
  | None => ret (Render "register.html" WithForm)
  end.

(** [login], route "/login" *)
Definition login (req : Request LoginForm) : View Response :=
  match validate_on_submit req with
  | Some form =>
      user <- query (User_by_email (login_email form)) ;;
      match user with
      | None =>
          flash "This email doesn't exist in our database!" ;;
          ret (Render "login.html" NoArgs)
      | Some u =>
          match Security.check_password_hash DEFAULT_PBKDF2_ITERATIONS
                  (user_password u) (login_password form) with
          | None => raise (ValueError "check_password_hash")
          | Some true =>
              login_user (user_id u) ;;
              ret (Redirect "get_all_posts" None)
          | Some false =>
              flash "Incorrect password, try again!" ;;
              ret (Render "login.html" NoArgs)
          end
      end
  | None => ret (Render "login.html" WithForm)
  end.

(** [logout], route "/logout" *)
Definition logout : View Response :=
  logout_user ;;
  ret (Redirect "get_all_posts" None).

(** [show_post], route "/post/<int:post_id>" *)
Definition show_post (post_id : nat) (req : Request CommentForm)
  : View Response :=
  all_comments <- query comments ;;
  requested_post <- BlogPost_query_get post_id ;;
  match validate_on_submit req with
  | Some form =>
      cu <- current_user ;;
      match cu with
      | LoggedIn u =>
          session_add (InsertComment (comment_body form) u (user_id u)
                                     requested_post post_id) ;;
          commit ;;
          all_comments <- query comments ;;
          ret (Render "post.html" (PostPage requested_post all_comments))
      | AnonymousUserMixin =>
          flash "You need to be logged in to make a comment!" ;;
          ret (Redirect "login" None)
      end
  | None => ret (Render "post.html" (PostPage requested_post all_comments))
  end.

(** [about] and [contact] *)
Definition about : View Response := ret (Render "about.html" NoArgs).
Definition contact : View Response := ret (Render "contact.html" NoArgs).

(** [add_new_post], route "/new-post", without its decorator. *)
Definition add_new_post_view (req : Request CreatePostForm) (today : Date)
  : View Response :=
  match validate_on_submit req with
  | Some form =>
      cu <- current_user ;;
      match cu with
      | LoggedIn u =>
          session_add (InsertPost (form_title form) (form_subtitle form)
                                  (form_body form) (form_img_url form) u
                                  (strftime_B_d_Y today)) ;;
          commit ;;
          ret (Redirect "get_all_posts" None)
      | AnonymousUserMixin =>
          raise (AttributeError "AnonymousUserMixin" "_sa_instance_state")
      end
  | None => ret (Render "make-post.html" WithForm)
  end.

Definition add_new_post (req : Request CreatePostForm) (today : Date)
  : View Response :=
  admin_only (add_new_post_view req today).

(** [post.author = edit_form.author.data]: a relationship takes a mapped
    object or [None]. *)
Definition set_author (id : nat) (v : option PyValue) : View unit :=
  match v with
  | None => raise (AttributeError "CreatePostForm" "author")
  | Some PyNone => session_add (UpdatePost id (Author None))
  | Some (PyUser u) => session_add (UpdatePost id (Author (Some u)))
  | Some (PyStr _) => raise (AttributeError "str" "_sa_instance_state")
  end.

(** [edit_post], route "/edit-post/<int:post_id>", without its decorator. *)
Definition edit_post_view (post_id : nat) (req : Request CreatePostForm)
  : View Response :=
  post <- BlogPost_query_get post_id ;;
  match post with
  | None => raise (AttributeError "NoneType" "title")
  | Some p =>
      match validate_on_submit req with
      | Some edit_form =>
          let id := Blog.post_id p in
          session_add (UpdatePost id (Title (form_title edit_form))) ;;
          session_add (UpdatePost id (Subtitle (form_subtitle edit_form))) ;;
          session_add (UpdatePost id (ImgUrl (form_img_url edit_form))) ;;
          set_author id (form_author edit_form) ;;
          session_add (UpdatePost id (Body (form_body edit_form))) ;;
          commit ;;
          ret (Redirect "show_post" (Some id))
      | None => ret (Render "make-post.html" WithForm)
      end
  end.

Definition edit_post (post_id : nat) (req : Request CreatePostForm)
  : View Response :=
  admin_only (edit_post_view post_id req).

(** [db.session.delete(instance)] *)
Definition session_delete (instance : option BlogPost) : View unit :=
  match instance with
  | None => raise (UnmappedInstanceError "NoneType")
  | Some p => session_add (DeletePost (Blog.post_id p))
  end.

(** [delete_post], route "/delete/<int:post_id>" *)
Definition delete_post (post_id : nat) : View Response :=
  post_to_delete <- BlogPost_query_get post_id ;;
  session_delete post_to_delete ;;
  commit ;;
  ret (Redirect "get_all_posts" None).

(** *** The application *)

(** What a client gets: the response of the view, the status of [abort], or
    the server error of an exception nothing handles. *)
Inductive Reply : Type :=
| Normal (r : Response)
| Aborted (code : nat)
| Fault (e : Exn).

(** One request: the view runs with a fresh session, and the session is
    removed when the request ends, with whatever it still holds. *)
Definition handle (v : View Response) (w : World) : Reply * World :=
  match v (mkCtx w []) with
  | (Ok r, c) => (Normal r, world c)
  | (Raise (HTTPException code), c) => (Aborted code, world c)
  | (Raise e, c) => (Fault e, world c)
  end.

(** The routes of the application, with what each request brings. *)
Inductive Call : Type :=
| CallIndex
| CallRegister (req : Request RegisterForm) (salt : string)
| CallLogin (req : Request LoginForm)
| CallLogout
| CallShowPost (post_id : nat) (req : Request CommentForm)
| CallAbout
| CallContact
| CallNewPost (req : Request CreatePostForm) (today : Date)
| CallEditPost (post_id : nat) (req : Request CreatePostForm)
| CallDelete (post_id : nat).

Definition route (c : Call) : View Response :=
  match c with
  | CallIndex => get_all_posts
  | CallRegister req salt => register req salt
  | CallLogin req => login req
  | CallLogout => logout
  | CallShowPost id req => show_post id req
  | CallAbout => about
  | CallContact => contact
  | CallNewPost req today => add_new_post req today
  | CallEditPost id req => edit_post id req
  | CallDelete id => delete_post id
  end.

Definition serve (c : Call) (w : World) : Reply * World := handle (route c) w.

(** A sequence of requests, one after the other. *)
Fixpoint run (cs : list Call) (w : World) : World :=
  match cs with
  | [] => w
  | c :: rest => run rest (snd (serve c w))
  end.

End Views.

Definition empty_world : World := mkWorld empty_db None [].

End Blog.

(** * Properties of the views *)

Import Blog.

(** Unfolds a view down to the state it threads. *)
Ltac run_view :=
  unfold serve, route, handle, get_all_posts, register, login, logout,
    show_post, about, contact, add_new_post_view, edit_post_view,
    delete_post, session_delete, set_author, commit, flash, login_user,
    logout_user, session_add, current_user, BlogPost_query_get, query, raise,
    ret, bind;
  cbn -[Security.generate_password_hash Security.check_password_hash
        title_taken email_taken strftime_B_d_Y flush].

Section Properties.

(** The count of iterations of the installed werkzeug. *)
Variable iterations : N.

(** The user a world is logged in as is the administrator: row 1 of [users]. *)
Definition is_admin (w : World) : bool :=
  match current_user_of w with
  | LoggedIn u => Nat.eqb (user_id u) 1
  | AnonymousUserMixin => false
  end.

Lemma BlogPost_get_some (id : nat) (d : Database) (p : BlogPost) :
  BlogPost_get id d = Some p -> In p (blog_posts d) /\ post_id p = id.
Proof.
  unfold BlogPost_get. intros H. apply find_some in H.
  destruct H as [Hin Heq]. split; [exact Hin | now apply Nat.eqb_eq].
Qed.

(** Behind the gate nothing runs unless the current user is the
    administrator: the decorated view is not entered, and the request ends
    in the 403 of [abort] for a logged-in user, in an [AttributeError] for
    an anonymous one. *)
Lemma admin_only_rejects (f : View Response) (w : World) :
  is_admin w = false ->
  handle (admin_only f) w
  = (match current_user_of w with
     | LoggedIn _ => Aborted 403
     | AnonymousUserMixin => Fault (AttributeError "AnonymousUserMixin" "id")
     end, w).
Proof.
  unfold is_admin, handle, admin_only, bind, current_user_id, current_user, bind.
  cbn. destruct (current_user_of w) as [|u]; cbn.
  - reflexivity.
  - intros ->. reflexivity.
Qed.

Lemma admin_only_enters (f : View Response) (w : World) :
  is_admin w = true -> handle (admin_only f) w = handle f w.
Proof.
  unfold is_admin, handle, admin_only, bind, current_user_id, current_user, bind.
  cbn. destruct (current_user_of w) as [|u]; cbn.
  - discriminate.
  - intros ->. reflexivity.
Qed.

(** C1, at the input where the code departs from it: with no session
    identity, a request to [add_new_post] or to [edit_post] ends in the
    server error of an [AttributeError] raised by [current_user.id], not in
    403; the world, and so every row of [blog_posts], is as it was. *)
Theorem anonymous_gate_faults (d : Database) (msgs : list string)
    (req : Request CreatePostForm) (today : Date) (post_id : nat) :
  let w := mkWorld d None msgs in
  serve iterations (CallNewPost req today) w
    = (Fault (AttributeError "AnonymousUserMixin" "id"), w)
  /\ serve iterations (CallEditPost post_id req) w
    = (Fault (AttributeError "AnonymousUserMixin" "id"), w).
Proof.
  intros w. split; reflexivity.
Qed.

(** The part of C1 the code keeps: whoever is not the administrator gets no
    further than the gate, and the world is unchanged. *)
Lemma gate_keeps_world (c : Call) (w : World) :
  is_admin w = false ->
  match c with CallNewPost _ _ | CallEditPost _ _ => True | _ => False end ->
  snd (serve iterations c w) = w
  /\ (forall u, current_user_of w = LoggedIn u ->
      fst (serve iterations c w) = Aborted 403).
Proof.
  intros Hna Hc. destruct c; try contradiction; unfold serve, route,
    add_new_post, edit_post; rewrite admin_only_rejects by assumption;
    (split; [reflexivity | intros u ->; reflexivity]).
Qed.

(** C2: [delete_post] asks for no identity.  Whoever calls it, logged in or
    not, for a post that exists is redirected to the index, and the row is
    gone from [blog_posts]; the other rows of the table stay. *)
Theorem delete_post_not_gated (w : World) (post_id : nat) (p : BlogPost) :
  BlogPost_get post_id (db w) = Some p ->
  exists w',
    serve iterations (CallDelete post_id) w
    = (Normal (Redirect "get_all_posts" None), w')
    /\ BlogPost_get post_id (db w') = None
    /\ blog_posts (db w')
       = filter (fun q => negb (Nat.eqb (Blog.post_id q) post_id))
                (blog_posts (db w))
    /\ login_id w' = login_id w.
Proof.
  intros Hget. destruct (BlogPost_get_some _ _ _ Hget) as [_ Hid].
  eexists. unfold serve, handle, route, delete_post, bind, query.
  cbn. rewrite Hget. cbn. rewrite Hid. repeat split.
  cbn. unfold BlogPost_get. cbn.
  destruct (find _ _) as [q|] eqn:Hf; [|reflexivity].
  apply find_some in Hf. destruct Hf as [Hin Hq].
  apply filter_In in Hin. destruct Hin as [_ Hn].
  rewrite Hq in Hn. discriminate.
Qed.

(** A lookup by an id that no row has and that is not an INTEGER of SQLite
    ends the request in the [OverflowError] of sqlite3: in [show_post] and
    in [delete_post] for every caller, in [edit_post] for the administrator.
    The world is unchanged. *)
Lemma lookup_overflows (w : World) (post_id : nat) :
  BlogPost_get post_id (db w) = None ->
  sqlite_integer post_id = false ->
  (forall req, serve iterations (CallShowPost post_id req) w
               = (Fault OverflowError, w))
  /\ serve iterations (CallDelete post_id) w = (Fault OverflowError, w)
  /\ (is_admin w = true ->
      forall req, serve iterations (CallEditPost post_id req) w
                  = (Fault OverflowError, w)).
Proof.
  intros Hget Hbig. split; [|split].
  - intros req. run_view. now rewrite Hget, Hbig.
  - run_view. now rewrite Hget, Hbig.
  - intros Hadm req. unfold serve, route, edit_post.
    rewrite admin_only_enters by assumption.
    run_view. now rewrite Hget, Hbig.
Qed.

(** C10: for an id no post has, [delete_post] ends in a server error; no
    redirect is sent and the world is unchanged.  The error is the
    [UnmappedInstanceError] that [db.session.delete(None)] raises, and, for
    an id that is not an INTEGER of SQLite, the [OverflowError] of the
    lookup before it. *)
Theorem delete_missing_post_faults (w : World) (post_id : nat) :
  BlogPost_get post_id (db w) = None ->
  serve iterations (CallDelete post_id) w
  = (Fault (if sqlite_integer post_id then UnmappedInstanceError "NoneType"
            else OverflowError), w).
Proof.
  intros Hget. run_view. rewrite Hget.
  destruct (sqlite_integer post_id); reflexivity.
Qed.

(** C5, as the code has it: the administrator asking to edit a post that
    does not exist gets a server error, and the world is unchanged.  The
    error is the [AttributeError] raised by [post.title] on [None], and,
    for an id that is not an INTEGER of SQLite, the [OverflowError] of the
    lookup before it. *)
Theorem edit_missing_post_faults (w : World) (post_id : nat)
    (req : Request CreatePostForm) :
  is_admin w = true ->
  BlogPost_get post_id (db w) = None ->
  serve iterations (CallEditPost post_id req) w
  = (Fault (if sqlite_integer post_id then AttributeError "NoneType" "title"
            else OverflowError), w).
Proof.
  intros Hadm Hget. unfold serve, route, edit_post.
  rewrite admin_only_enters by assumption.
  run_view. rewrite Hget. destruct (sqlite_integer post_id); reflexivity.
Qed.

Lemma title_taken_In (t : string) (d : Database) (p : BlogPost) :
  In p (blog_posts d) -> post_title p = t -> title_taken t None d = true.
Proof.
  intros Hin Ht. unfold title_taken. apply existsb_exists.
  exists p. split; [exact Hin|]. rewrite Ht, String.eqb_refl. reflexivity.
Qed.

(** C4, as the code has it: the administrator creating a post whose title a
    row of [blog_posts] already has gets the server error of the
    [IntegrityError] of the unique constraint, which [add_new_post] does not
    catch; the world is unchanged. *)
Theorem duplicate_title_faults (w : World) (form : CreatePostForm)
    (today : Date) (p : BlogPost) :
  is_admin w = true ->
  In p (blog_posts (db w)) ->
  post_title p = form_title form ->
  serve iterations (CallNewPost (POST form true) today) w
  = (Fault (IntegrityError "blog_posts.title"), w).
Proof.
  intros Hadm Hin Ht. unfold serve, route, add_new_post.
  rewrite admin_only_enters by assumption.
  unfold is_admin in Hadm.
  unfold handle, add_new_post_view, bind, current_user. cbn.
  destruct (current_user_of w) as [|u]; [discriminate|].
  unfold commit. cbn -[title_taken strftime_B_d_Y].
  rewrite (title_taken_In _ _ _ Hin Ht). reflexivity.
Qed.

Lemma User_by_email_In (e : string) (d : Database) (u : User) :
  In u (users d) -> user_email u = e -> exists v, User_by_email e d = Some v.
Proof.
  intros Hin He. unfold User_by_email.
  destruct (find _ _) as [v|] eqn:Hf; [now exists v|].
  apply (find_none _ _ Hf) in Hin. rewrite He, String.eqb_refl in Hin.
  discriminate.
Qed.

(** C6: registering with an email a row of [users] already has flashes the
    notice and redirects to the login page; the database and the login are
    as they were. *)
Theorem register_duplicate_email (w : World) (form : RegisterForm)
    (salt : string) (u : User) :
  In u (users (db w)) ->
  user_email u = register_email form ->
  serve iterations (CallRegister (POST form true) salt) w
  = (Normal (Redirect "login" None),
     mkWorld (db w) (login_id w)
             (flashed w ++ ["Email already exists! Please login instead."])).
Proof.
  intros Hin He. destruct (User_by_email_In _ _ _ Hin He) as [v Hv].
  unfold serve, route, handle, register, bind, query. cbn.
  rewrite Hv. reflexivity.
Qed.

(** C9, as the code has it: a comment submitted with no authenticated
    identity to a post id that is an INTEGER of SQLite flashes the notice
    and redirects to the login page.  [show_post] looks the post up before
    it asks who is logged in, so for a larger id, which no row has, the
    request ends in the [OverflowError] of the lookup and nothing is flashed.
    Either way the database, and with it the table of comments, is as it
    was. *)
Theorem comment_needs_login (w : World) (post_id : nat) (form : CommentForm) :
  current_user_of w = AnonymousUserMixin ->
  (sqlite_integer post_id = true ->
   serve iterations (CallShowPost post_id (POST form true)) w
   = (Normal (Redirect "login" None),
      mkWorld (db w) (login_id w)
              (flashed w ++ ["You need to be logged in to make a comment!"])))
  /\ (sqlite_integer post_id = false ->
      BlogPost_get post_id (db w) = None ->
      serve iterations (CallShowPost post_id (POST form true)) w
      = (Fault OverflowError, w))
  /\ db (snd (serve iterations (CallShowPost post_id (POST form true)) w))
     = db w.
Proof.
  intros Hcu. split; [|split].
  - intros Hint. run_view. rewrite Hint.
    destruct (BlogPost_get post_id (db w)); cbn; rewrite Hcu; reflexivity.
  - intros Hbig Hget. run_view. now rewrite Hget, Hbig.
  - run_view. destruct (BlogPost_get post_id (db w)); cbn.
    + rewrite Hcu. reflexivity.
    + destruct (sqlite_integer post_id); cbn; [rewrite Hcu|]; reflexivity.
Qed.

(** *** Editing a post *)

(** The post [q] with the five fields of the form written over it. *)
Definition edited (form : CreatePostForm) (author : option User)
    (q : BlogPost) : BlogPost :=
  mkBlogPost (post_id q) (option_map user_id author) (form_title form)
             (form_subtitle form) (post_date q) (form_body form)
             (form_img_url form).

Lemma set_attr_id (a : PostAttr) (q : BlogPost) :
  post_id (set_attr a q) = post_id q.
Proof. now destruct a. Qed.

Lemma BlogPost_get_map (id : nat) (f : BlogPost -> BlogPost)
    (us : list User) (ps : list BlogPost) (cs : list Comment) (p : BlogPost) :
  (forall q, post_id (f q) = post_id q) ->
  BlogPost_get id (mkDatabase us ps cs) = Some p ->
  BlogPost_get id
    (mkDatabase us (map (fun q => if Nat.eqb (post_id q) id then f q else q) ps)
                cs)
  = Some (f p).
Proof.
  intros Hf. unfold BlogPost_get. cbn. induction ps as [|q ps IH]; cbn.
  - discriminate.
  - destruct (Nat.eqb (post_id q) id) eqn:Hq.
    + intros [= ->]. now rewrite Hf, Hq.
    + rewrite Hq. exact IH.
Qed.

(** A flush of attributes set on one loaded post: when it goes through, the
    attributes were written in order over the rows with that id, and nothing
    else moved. *)
Lemma flush_updates (id : nat) (attrs : list PostAttr) :
  forall (d d' : Database) (p : BlogPost) (ks : list nat),
    BlogPost_get id d = Some p ->
    flush (map (UpdatePost id) attrs) d = Ok (d', ks) ->
    users d' = users d /\ comments d' = comments d /\ ks = []
    /\ blog_posts d'
       = map (fun q => if Nat.eqb (post_id q) id
                       then fold_left (fun q a => set_attr a q) attrs q
                       else q)
             (blog_posts d).
Proof.
  induction attrs as [|a attrs IH]; intros d d' p ks Hget; cbn [map flush].
  - intros [= <- <-]. repeat split.
    rewrite <- (map_id (blog_posts d)) at 1. apply map_ext.
    intros q. now destruct (Nat.eqb _ _).
  - unfold apply_change. rewrite Hget.
    destruct (match a with Title t => title_taken t (Some id) d | _ => false end);
      [discriminate|].
    destruct d as [us ps cs]. cbn [users blog_posts comments].
    destruct (flush _ _) as [[d2 ks2]|e] eqn:Hrest; [|discriminate].
    intros [= <- <-].
    apply (IH _ _ (set_attr a p)) in Hrest.
    2:{ apply (BlogPost_get_map id (set_attr a)); [apply set_attr_id | exact Hget]. }
    cbn [users blog_posts comments] in Hrest.
    destruct Hrest as (Hu & Hc & Hk & Hp). repeat split; try assumption.
    rewrite Hp, map_map. apply map_ext. intros q.
    destruct (Nat.eqb (post_id q) id) eqn:Hq; cbn [fold_left].
    + now rewrite set_attr_id, Hq.
    + now rewrite Hq.
Qed.

(** C8: when an edit goes through, the rows of [blog_posts] with the id of
    the post carry the title, subtitle, image URL, author and body of the
    form and keep their id and their date; every other row of the table,
    and the tables of users and comments, are as they were.  The post
    existed before, and it is the administrator who edited it. *)
Theorem edit_post_overwrites (w w' : World) (post_id : nat)
    (form : CreatePostForm) (r : Response) :
  serve iterations (CallEditPost post_id (POST form true)) w = (Normal r, w') ->
  exists (p : BlogPost) (author : option User),
    BlogPost_get post_id (db w) = Some p
    /\ form_author form
       = Some (match author with Some u => PyUser u | None => PyNone end)
    /\ r = Redirect "show_post" (Some post_id)
    /\ blog_posts (db w')
       = map (fun q => if Nat.eqb (Blog.post_id q) post_id
                       then edited form author q else q)
             (blog_posts (db w))
    /\ BlogPost_get post_id (db w') = Some (edited form author p)
    /\ users (db w') = users (db w)
    /\ comments (db w') = comments (db w)
    /\ login_id w' = login_id w.
Proof.
  unfold serve, route, edit_post. intros H.
  destruct (is_admin w) eqn:Hadm.
  2:{ rewrite admin_only_rejects in H by assumption.
      destruct (current_user_of w); discriminate. }
  rewrite admin_only_enters in H by assumption.
  unfold handle, edit_post_view, BlogPost_query_get, bind, query, ret, raise
    in H.
  cbn in H.
  destruct (BlogPost_get post_id (db w)) as [p|] eqn:Hget;
    [|destruct (sqlite_integer post_id); discriminate].
  destruct (BlogPost_get_some _ _ _ Hget) as [_ Hid].
  assert (Hflush : forall author : option User,
    match flush (map (UpdatePost post_id)
                   [Title (form_title form); Subtitle (form_subtitle form);
                    ImgUrl (form_img_url form); Author author;
                    Body (form_body form)]) (db w) with
    | Ok (d, _) =>
        (Normal (Redirect "show_post" (Some post_id)),
         mkWorld d (login_id w) (flashed w))
    | Raise (HTTPException code) => (Aborted code, w)
    | Raise e => (Fault e, w)
    end = (Normal r, w') ->
    r = Redirect "show_post" (Some post_id)
    /\ blog_posts (db w')
       = map (fun q => if Nat.eqb (Blog.post_id q) post_id
                       then edited form author q else q)
             (blog_posts (db w))
    /\ BlogPost_get post_id (db w') = Some (edited form author p)
    /\ users (db w') = users (db w)
    /\ comments (db w') = comments (db w)
    /\ login_id w' = login_id w).
  { intros author Hf.
    destruct (flush _ _) as [[d ks]|e] eqn:Hfl.
    2:{ destruct e; discriminate. }
    injection Hf as <- <-.
    destruct (flush_updates _ _ _ _ _ _ Hget Hfl) as (Hu & Hc & _ & Hp).
    cbn [db login_id]. cbn [fold_left set_attr] in Hp.
    assert (Hp' : blog_posts d
                  = map (fun q => if Nat.eqb (Blog.post_id q) post_id
                                  then edited form author q else q)
                        (blog_posts (db w))).
    { rewrite Hp. apply map_ext. intros q. now destruct (Nat.eqb _ _). }
    repeat split; try assumption.
    destruct d as [us ps cs]. cbn [blog_posts] in Hp'. rewrite Hp'.
    destruct (db w) as [us0 ps0 cs0] eqn:Hdb. cbn [blog_posts].
    apply (BlogPost_get_map post_id (edited form author) us ps0 cs p);
      [reflexivity|].
    unfold BlogPost_get in *. exact Hget. }
  destruct (form_author form) as [[|s|u]|] eqn:Hau; cbn in H;
    try discriminate; rewrite Hid in H; unfold commit in H;
    cbn [pending world app] in H.
  - exists p, None. split; [reflexivity|]. split; [reflexivity|].
    apply Hflush. rewrite <- H. cbn [map].
    destruct (flush _ _) as [[d ks]|e]; reflexivity.
  - exists p, (Some u). split; [reflexivity|]. split; [reflexivity|].
    apply Hflush. rewrite <- H. cbn [map].
    destruct (flush _ _) as [[d ks]|e]; reflexivity.
Qed.

(** *** The references of comments *)

Definition has_user (d : Database) (id : nat) : bool :=
  existsb (fun u => Nat.eqb (user_id u) id) (users d).

Definition has_post (d : Database) (id : nat) : bool :=
  existsb (fun p => Nat.eqb (post_id p) id) (blog_posts d).

(** The author of a comment is a row of [users]. *)
Definition author_resolves (d : Database) (c : Comment) : bool :=
  match comment_author_id c with
  | Some a => has_user d a
  | None => false
  end.

(** The post of a comment is a row of [blog_posts]. *)
Definition post_resolves (d : Database) (c : Comment) : bool :=
  match comment_post_id c with
  | Some p => has_post d p
  | None => false
  end.

(** The post of a comment is NULL or a row of [blog_posts]. *)
Definition post_null_or_resolves (d : Database) (c : Comment) : bool :=
  match comment_post_id c with
  | Some p => has_post d p
  | None => true
  end.

(** Every comment has its author and its post in the database. *)
Definition references_resolve (d : Database) : bool :=
  forallb (fun c => author_resolves d c && post_resolves d c) (comments d).

(** Every comment has its author in the database, and its post when it has
    one. *)
Definition references_sound (d : Database) : bool :=
  forallb (fun c => author_resolves d c && post_null_or_resolves d c)
          (comments d).

Lemma has_user_get (id : nat) (d : Database) (u : User) :
  User_get id d = Some u -> has_user d (user_id u) = true.
Proof.
  unfold User_get, has_user. intros H. apply find_some in H.
  apply existsb_exists. exists u. split; [apply H | apply Nat.eqb_refl].
Qed.

Lemma has_user_current (w : World) (u : User) :
  current_user_of w = LoggedIn u -> has_user (db w) (user_id u) = true.
Proof.
  unfold current_user_of, load_user. destruct (login_id w) as [id|]; [|discriminate].
  destruct (User_get id (db w)) as [v|] eqn:Hget; [|discriminate].
  intros [= <-]. exact (has_user_get _ _ _ Hget).
Qed.

Lemma has_post_get (id : nat) (d : Database) (p : BlogPost) :
  BlogPost_get id d = Some p -> has_post d (post_id p) = true.
Proof.
  intros H. apply BlogPost_get_some in H. unfold has_post.
  apply existsb_exists. exists p. split; [apply H | apply Nat.eqb_refl].
Qed.

(** Comments stay sound when no user and no post goes away. *)
Lemma sound_mono (d d' : Database) :
  (forall id, has_user d id = true -> has_user d' id = true) ->
  (forall id, has_post d id = true -> has_post d' id = true) ->
  comments d' = comments d ->
  references_sound d = true -> references_sound d' = true.
Proof.
  unfold references_sound. intros Hu Hp ->. rewrite !forallb_forall.
  intros H c Hc. specialize (H c Hc). apply andb_true_iff in H.
  destruct H as [Ha Hq]. apply andb_true_iff. split.
  - unfold author_resolves in *. destruct (comment_author_id c); auto.
  - unfold post_null_or_resolves in *. destruct (comment_post_id c); auto.
Qed.

Lemma sound_insert_user (d : Database) (u : User) :
  references_sound d = true ->
  references_sound (mkDatabase (users d ++ [u]) (blog_posts d) (comments d))
  = true.
Proof.
  apply sound_mono; [|auto|reflexivity].
  unfold has_user. cbn. intros id H. rewrite existsb_app, H. reflexivity.
Qed.

Lemma sound_insert_post (d : Database) (p : BlogPost) :
  references_sound d = true ->
  references_sound (mkDatabase (users d) (blog_posts d ++ [p]) (comments d))
  = true.
Proof.
  apply sound_mono; [auto| |reflexivity].
  unfold has_post. cbn. intros id H. rewrite existsb_app, H. reflexivity.
Qed.

Lemma sound_insert_comment (d : Database) (c : Comment) :
  author_resolves d c = true ->
  post_null_or_resolves d c = true ->
  references_sound d = true ->
  references_sound (mkDatabase (users d) (blog_posts d) (comments d ++ [c]))
  = true.
Proof.
  unfold references_sound. cbn [comments]. intros Ha Hp H.
  rewrite forallb_app. cbn [forallb].
  unfold author_resolves, post_null_or_resolves, has_user, has_post in *.
  cbn [users blog_posts]. now rewrite H, Ha, Hp.
Qed.

Lemma sound_delete_post (d : Database) (id : nat) :
  references_sound d = true ->
  references_sound
    (mkDatabase (users d)
       (filter (fun p => negb (Nat.eqb (post_id p) id)) (blog_posts d))
       (map (orphan id) (comments d)))
  = true.
Proof.
  unfold references_sound. cbn [comments]. rewrite !forallb_forall.
  intros H c Hc. apply in_map_iff in Hc. destruct Hc as (c0 & <- & Hc0).
  specialize (H c0 Hc0). apply andb_true_iff in H. destruct H as [Ha Hp].
  unfold author_resolves, post_null_or_resolves, orphan, has_user in *.
  cbn [users]. destruct (comment_post_id c0) as [q|] eqn:Hq.
  - destruct (Nat.eqb q id) eqn:Hqid; cbn [comment_author_id comment_post_id].
    + now rewrite Ha.
    + rewrite Hq. apply andb_true_iff. split; [exact Ha|].
      unfold has_post in *. cbn [blog_posts].
      apply existsb_exists in Hp. destruct Hp as (p & Hin & Hpq).
      apply existsb_exists. exists p. split; [|exact Hpq].
      apply filter_In. split; [exact Hin|].
      apply Nat.eqb_eq in Hpq. rewrite Hpq, Hqid. reflexivity.
  - rewrite Hq. now rewrite Ha.
Qed.

Lemma sound_update_posts (d d' : Database) (f : BlogPost -> BlogPost) :
  (forall q, post_id (f q) = post_id q) ->
  users d' = users d -> comments d' = comments d ->
  blog_posts d' = map f (blog_posts d) ->
  references_sound d = true -> references_sound d' = true.
Proof.
  intros Hf Hu Hc Hp. apply sound_mono; [| |exact Hc].
  - unfold has_user. now rewrite Hu.
  - unfold has_post. rewrite Hp. intros id H.
    apply existsb_exists in H. destruct H as (p & Hin & Hid).
    apply existsb_exists. exists (f p). split; [now apply in_map|].
    now rewrite Hf.
Qed.

Lemma fold_set_attr_id (attrs : list PostAttr) (q : BlogPost) :
  post_id (fold_left (fun q a => set_attr a q) attrs q) = post_id q.
Proof.
  revert q. induction attrs as [|a attrs IH]; intros q; cbn; [reflexivity|].
  now rewrite IH, set_attr_id.
Qed.

(** A commit of attributes set on one loaded post keeps comments sound. *)
Lemma sound_flush_updates (id : nat) (attrs : list PostAttr)
    (d d' : Database) (p : BlogPost) (ks : list nat) :
  BlogPost_get id d = Some p ->
  flush (map (UpdatePost id) attrs) d = Ok (d', ks) ->
  references_sound d = true -> references_sound d' = true.
Proof.
  intros Hget Hfl. destruct (flush_updates _ _ _ _ _ _ Hget Hfl)
    as (Hu & Hc & _ & Hp).
  apply (sound_update_posts d d' _) with (4 := Hp); try assumption.
  intros q. destruct (Nat.eqb _ _); [apply fold_set_attr_id | reflexivity].
Qed.

(** Every request leaves comments sound. *)
Lemma serve_sound (c : Call) (w : World) :
  references_sound (db w) = true ->
  references_sound (db (snd (serve iterations c w))) = true.
Proof.
  intros Hs. destruct c as [|req salt|req| |id req| | |req today|id req|id].
  - (* get_all_posts *) exact Hs.
  - (* register *)
    run_view. destruct req as [|form [|]]; cbn; try exact Hs.
    destruct (User_by_email _ _); cbn; [exact Hs|].
    destruct (Security.generate_password_hash _ _ _ _); cbn; [|exact Hs].
    destruct (email_taken _ _); cbn; [exact Hs|].
    now apply sound_insert_user.
  - (* login *)
    run_view. destruct req as [|form [|]]; cbn; try exact Hs.
    destruct (User_by_email _ _); cbn; [|exact Hs].
    destruct (Security.check_password_hash _ _ _) as [[|]|]; exact Hs.
  - (* logout *) exact Hs.
  - (* show_post *)
    run_view.
    destruct (BlogPost_get id (db w)) as [p|] eqn:Hget;
      [|destruct (sqlite_integer id); [|exact Hs]];
      (destruct req as [|form [|]]; cbn; try exact Hs;
       destruct (current_user_of w) as [|u] eqn:Hcu; cbn; [exact Hs|];
       apply sound_insert_comment; [| |exact Hs];
       [unfold author_resolves; cbn; exact (has_user_current _ _ Hcu)
       |unfold post_null_or_resolves; cbn; try reflexivity;
        exact (has_post_get _ _ _ Hget)]).
  - (* about *) exact Hs.
  - (* contact *) exact Hs.
  - (* add_new_post *)
    unfold serve, route, add_new_post. destruct (is_admin w) eqn:Hadm.
    2:{ now rewrite admin_only_rejects. }
    rewrite admin_only_enters by assumption.
    run_view. destruct req as [|form [|]]; cbn; try exact Hs.
    destruct (current_user_of w) as [|u]; cbn -[title_taken strftime_B_d_Y];
      [exact Hs|].
    destruct (title_taken _ _ _); cbn -[strftime_B_d_Y]; [exact Hs|].
    now apply sound_insert_post.
  - (* edit_post *)
    unfold serve, route, edit_post. destruct (is_admin w) eqn:Hadm.
    2:{ now rewrite admin_only_rejects. }
    rewrite admin_only_enters by assumption.
    run_view. destruct (BlogPost_get id (db w)) as [p|] eqn:Hget;
      [|destruct (sqlite_integer id); exact Hs].
    cbn. destruct (BlogPost_get_some _ _ _ Hget) as [_ Hid]. rewrite Hid.
    destruct req as [|form [|]]; cbn -[flush]; try exact Hs.
    destruct (form_author form) as [[|s|u]|]; cbn -[flush]; try exact Hs.
    + destruct (flush _ _) as [[d ks]|e] eqn:Hfl; [|destruct e; exact Hs].
      cbn. exact (sound_flush_updates id
                    [Title _; Subtitle _; ImgUrl _; Author None; Body _]
                    _ _ _ _ Hget Hfl Hs).
    + destruct (flush _ _) as [[d ks]|e] eqn:Hfl; [|destruct e; exact Hs].
      cbn. exact (sound_flush_updates id
                    [Title _; Subtitle _; ImgUrl _; Author (Some u); Body _]
                    _ _ _ _ Hget Hfl Hs).
  - (* delete_post *)
    run_view. destruct (BlogPost_get id (db w)) as [p|];
      [|destruct (sqlite_integer id); exact Hs].
    cbn. now apply sound_delete_post.
Qed.

(** C3, as the code has it: after every sequence of requests every stored
    comment has its author among the users, and its post, unless the
    reference is NULL, among the posts. *)
Theorem comments_stay_sound (cs : list Call) (w : World) :
  references_sound (db w) = true ->
  references_sound (db (run iterations cs w)) = true.
Proof.
  revert w. induction cs as [|c cs IH]; intros w Hs; cbn [run].
  - exact Hs.
  - apply IH. now apply serve_sound.
Qed.

End Properties.

(** * Test vectors

    The model of [hashlib] on the published vectors: SHA-256 of FIPS 180-4,
    HMAC-SHA-256 of RFC 4231 (test cases 2 and 6) and PBKDF2-HMAC-SHA-256
    with one and two iterations. *)

Section Vectors.

Import Hashlib.
Local Open Scope string_scope.

Example sha256_abc :
  hex (sha256 (encode "abc"))
  = "ba7816bf8f01cfea414140de5dae2223b00361a396177a9cb410ff61f20015ad".
Proof. vm_compute. reflexivity. Qed.

Example sha256_two_blocks :
  hex (sha256 (encode "abcdbcdecdefdefgefghfghighijhijkijkljklmklmnlmnomnopnopq"))
  = "248d6a61d20638b8e5c026930c3e6039a33ce45964ff2167f6ecedd419db06c1".
Proof. vm_compute. reflexivity. Qed.

Example hmac_sha256_rfc4231 :
  hex (hmac_sha256 (encode "Jefe") (encode "what do ya want for nothing?"))
  = "5bdcc146bf60754e6a042426089575c75a003f089d2739839dec58b964ec3843".
Proof. vm_compute. reflexivity. Qed.

Example hmac_sha256_long_key :
  hex (hmac_sha256 (repeat 170%N 131)
         (encode "Test Using Larger Than Block-Size Key - Hash Key First"))
  = "60e431591ee0b67f0d8a26aacbf5b77f8e0bc6213728c5140546040f0ee37f54".
Proof. vm_compute. reflexivity. Qed.

Example pbkdf2_one_iteration :
  hex (pbkdf2_hmac_sha256 (encode "password") (encode "salt") 1)
  = "120fb6cffcf8b32c43e7225256c4f837a86548c92ccc35480805987cb70be17b".
Proof. vm_compute. reflexivity. Qed.

Example pbkdf2_two_iterations :
  hex (pbkdf2_hmac_sha256 (encode "password") (encode "salt") 2)
  = "ae4d0c95af6b46d32d0adff928f06dd02a303f8ef3c251dfd6e2d85a95474c43".
Proof. vm_compute. reflexivity. Qed.

End Vectors.

(** * Password hashes *)

Section Passwords.

Import Hashlib Security.
Local Open Scope string_scope.

Lemma partition_no_sep (sep : ascii) (a : string) :
  count sep a = 0 -> partition sep a = (a, None).
Proof.
  induction a as [|c a IH]; cbn; [reflexivity|].
  destruct (Ascii.eqb c sep); [discriminate|]. cbn. intros H.
  now rewrite (IH H).
Qed.

Lemma partition_app (sep : ascii) (a b : string) :
  count sep a = 0 -> partition sep (a ++ String sep b) = (a, Some b).
Proof.
  induction a as [|c a IH]; cbn.
  - now rewrite Ascii.eqb_refl.
  - destruct (Ascii.eqb c sep); [discriminate|]. cbn. intros H.
    now rewrite (IH H).
Qed.

Lemma split_no_sep (sep : ascii) (n : nat) (a : string) :
  count sep a = 0 -> split sep n a = [a].
Proof.
  intros H. destruct n; cbn; [reflexivity|]. now rewrite partition_no_sep.
Qed.

Lemma split_app (sep : ascii) (n : nat) (a b : string) :
  count sep a = 0 -> split sep (S n) (a ++ String sep b) = a :: split sep n b.
Proof. intros H. cbn [split]. now rewrite partition_app. Qed.

Lemma count_app (sep : ascii) (a b : string) :
  count sep (a ++ b) = count sep a + count sep b.
Proof.
  induction a as [|c a IH]; cbn; [reflexivity|]. rewrite IH. lia.
Qed.

Lemma length_app (a b : string) :
  String.length (a ++ b) = String.length a + String.length b.
Proof. induction a as [|c a IH]; cbn; [reflexivity|]. now rewrite IH. Qed.

Lemma substring_all (s : string) : substring 0 (String.length s) s = s.
Proof. induction s as [|c s IH]; cbn; [reflexivity|]. now rewrite IH. Qed.

(** A decimal numeral has no colon and no dollar sign in it. *)
Lemma count_string_of_uint (sep : ascii) (d : Decimal.uint) :
  (nat_of_ascii sep < 48 \/ 57 < nat_of_ascii sep) ->
  count sep (NilEmpty.string_of_uint d) = 0.
Proof.
  intros Hsep. induction d; cbn [NilEmpty.string_of_uint count];
    [reflexivity| ..]; rewrite IHd;
    match goal with
    | |- context [Ascii.eqb ?c sep] =>
        destruct (Ascii.eqb c sep) eqn:E; [|reflexivity]
    end;
    apply Ascii.eqb_eq in E; subst sep; cbn in Hsep; lia.
Qed.

Lemma int_of_str_of_N (n : N) : int_of_str (str_of_N n) = Some n.
Proof.
  unfold int_of_str, str_of_N. rewrite NilEmpty.usu. cbn.
  now rewrite DecimalN.Unsigned.of_to.
Qed.

(** The method the hash of a password is stored with. *)
Definition stored_method (iterations : N) : string :=
  "pbkdf2:sha256:" ++ str_of_N iterations.

(** The digest of a password under a salt and a count of iterations. *)
Definition digest (iterations : N) (salt password : string) : string :=
  hex (pbkdf2_hmac_sha256 (encode password) (encode salt) iterations).

Lemma hash_internal_default (iterations : N) (salt password : string) :
  (0 < iterations)%N -> salt <> "" ->
  _hash_internal iterations "pbkdf2:sha256" salt password
  = Some (digest iterations salt password, stored_method iterations).
Proof.
  intros Hit Hsalt. unfold _hash_internal.
  change (prefix "pbkdf2:" "pbkdf2:sha256") with true. cbv iota.
  destruct (String.eqb salt "") eqn:E.
  { apply String.eqb_eq in E. contradiction. }
  change (split ":" (String.length "pbkdf2:sha256")
            (substring 7 (String.length "pbkdf2:sha256" - 7) "pbkdf2:sha256"))
    with ["sha256"].
  cbv beta iota zeta. destruct iterations; [lia|reflexivity].
Qed.

Lemma hash_internal_stored (default iterations : N) (salt password : string) :
  (0 < iterations)%N -> salt <> "" ->
  _hash_internal default (stored_method iterations) salt password
  = Some (digest iterations salt password, stored_method iterations).
Proof.
  intros Hit Hsalt. unfold _hash_internal, stored_method.
  change (prefix "pbkdf2:" ("pbkdf2:sha256:" ++ str_of_N iterations)) with true.
  cbv iota. destruct (String.eqb salt "") eqn:E.
  { apply String.eqb_eq in E. contradiction. }
  assert (Hsub : substring 7
            (String.length ("pbkdf2:sha256:" ++ str_of_N iterations) - 7)
            ("pbkdf2:sha256:" ++ str_of_N iterations)
          = "sha256:" ++ str_of_N iterations).
  { rewrite length_app. cbn [String.length Nat.add Nat.sub append substring].
    now rewrite substring_all. }
  rewrite Hsub. rewrite length_app. cbn [String.length Nat.add].
  change ("sha256:" ++ str_of_N iterations)
    with ("sha256" ++ String ":" (str_of_N iterations)).
  rewrite split_app by reflexivity.
  rewrite split_no_sep.
  2:{ apply count_string_of_uint. cbn. lia. }
  rewrite int_of_str_of_N. destruct iterations; [lia|reflexivity].
Qed.

Lemma salt_chars_count (sep : ascii) (s : string) :
  salt_char sep = false -> salt_chars s = true -> count sep s = 0.
Proof.
  intros Hsep. induction s as [|c s IH]; cbn; [reflexivity|].
  intros H. apply andb_true_iff in H. destruct H as [Hc Hs].
  rewrite (IH Hs). destruct (Ascii.eqb c sep) eqn:E; [|reflexivity].
  apply Ascii.eqb_eq in E. subst c. congruence.
Qed.

Lemma is_salt_facts (salt : string) :
  is_salt salt = true -> salt <> "" /\ count "$" salt = 0.
Proof.
  unfold is_salt. intros H. apply andb_true_iff in H. destruct H as [Hl Hc].
  split.
  - intros ->. discriminate.
  - now apply salt_chars_count.
Qed.

(** What [generate_password_hash] stores. *)
Lemma generate_stored (iterations : N) (salt password : string) :
  (0 < iterations)%N -> salt <> "" ->
  generate_password_hash iterations salt password "pbkdf2:sha256"
  = Some (stored_method iterations ++ "$" ++ salt ++ "$"
          ++ digest iterations salt password).
Proof.
  intros Hit Hsalt. unfold generate_password_hash.
  now rewrite hash_internal_default.
Qed.

(** A stored hash checks a password by its digest under the stored salt
    and count of iterations. *)
Lemma check_stored (default iterations : N) (salt password q : string) :
  (0 < iterations)%N -> salt <> "" -> count "$" salt = 0 ->
  check_password_hash default
    (stored_method iterations ++ "$" ++ salt ++ "$"
     ++ digest iterations salt password) q
  = Some (String.eqb (digest iterations salt q)
                     (digest iterations salt password)).
Proof.
  intros Hit Hsalt Hcount. unfold check_password_hash.
  assert (Hm : count "$" (stored_method iterations) = 0).
  { unfold stored_method, str_of_N. rewrite count_app.
    rewrite count_string_of_uint by (cbn; lia). reflexivity. }
  assert (Hn : Nat.ltb (count "$" (stored_method iterations ++ "$" ++ salt
                  ++ "$" ++ digest iterations salt password)) 2 = false).
  { apply Nat.ltb_ge. rewrite !count_app. cbn. lia. }
  rewrite Hn.
  change (stored_method iterations ++ "$" ++ salt ++ "$"
          ++ digest iterations salt password)
    with (stored_method iterations
          ++ String "$" (salt ++ String "$" (digest iterations salt password))).
  rewrite split_app by assumption. rewrite split_app by assumption.
  cbn [split]. now rewrite hash_internal_stored.
Qed.

(** *** HMAC reads its key through [hmac_key] *)

Lemma hmac_sha256_key (k k' msg : bytes) :
  hmac_key k = hmac_key k' -> hmac_sha256 k msg = hmac_sha256 k' msg.
Proof. unfold hmac_sha256. now intros ->. Qed.

Lemma N_iter_ext {A : Type} (f g : A -> A) (n : N) (a : A) :
  (forall x, f x = g x) -> N.iter n f a = N.iter n g a.
Proof.
  intros Hfg. induction n as [|n IH] using N.peano_ind.
  - reflexivity.
  - now rewrite !N.iter_succ, IH, Hfg.
Qed.

Lemma pbkdf2_key (k k' salt : bytes) (iterations : N) :
  hmac_key k = hmac_key k' ->
  pbkdf2_hmac_sha256 k salt iterations = pbkdf2_hmac_sha256 k' salt iterations.
Proof.
  intros Hk. unfold pbkdf2_hmac_sha256.
  rewrite (hmac_sha256_key k k' _ Hk). f_equal.
  apply N_iter_ext. intros tu. now rewrite (hmac_sha256_key k k' _ Hk).
Qed.

Lemma digest_key (iterations : N) (salt p q : string) :
  hmac_key (encode q) = hmac_key (encode p) ->
  digest iterations salt q = digest iterations salt p.
Proof. intros Hk. unfold digest. now rewrite (pbkdf2_key _ _ _ _ Hk). Qed.

Lemma encode_app (a b : string) : encode (a ++ b) = (encode a ++ encode b)%list.
Proof.
  unfold encode. induction a as [|c a IH]; cbn; [reflexivity|].
  now rewrite IH.
Qed.

(** The password followed by a NUL character. *)
Definition nul_padded (p : string) : string := p ++ String Ascii.zero "".

Lemma nul_padded_differs (p : string) : nul_padded p <> p.
Proof.
  intros H. apply (f_equal String.length) in H. unfold nul_padded in H.
  rewrite length_app in H. cbn in H. lia.
Qed.

(** HMAC fills a short key with zero bytes: a NUL at the end of a password
    of fewer than 64 bytes changes nothing. *)
Lemma hmac_key_nul_padded (p : string) :
  List.length (encode p) < block_size ->
  hmac_key (encode (nul_padded p)) = hmac_key (encode p).
Proof.
  unfold nul_padded, hmac_key, block_size. intros Hlen.
  rewrite encode_app. cbn [encode list_ascii_of_string map].
  change (N_of_ascii Ascii.zero) with 0%N.
  assert (Hl : List.length (encode p ++ [0%N]) = S (List.length (encode p))).
  { rewrite List.length_app. cbn. lia. }
  rewrite Hl.
  replace (Nat.ltb 64 (S (List.length (encode p)))) with false
    by (symmetry; apply Nat.ltb_ge; lia).
  replace (Nat.ltb 64 (List.length (encode p))) with false
    by (symmetry; apply Nat.ltb_ge; lia).
  rewrite Hl, <- app_assoc. f_equal. cbn [app].
  replace (64 - List.length (encode p))
    with (S (64 - S (List.length (encode p)))) by lia.
  reflexivity.
Qed.

End Passwords.

(** *** Registration, then login *)

Section Login.

Import Hashlib Security.
Local Open Scope string_scope.

Variable iterations : N.

(** The row [register] adds for a form. *)
Definition new_user (d : Database) (form : RegisterForm) (salt : string)
  : User :=
  mkUser (next_id (map user_id (users d))) (register_email form)
         (stored_method iterations ++ "$" ++ salt ++ "$"
          ++ digest iterations salt (register_password form))
         (register_name form).

(** The world after a registration that went through. *)
Definition registered (w : World) (form : RegisterForm) (salt : string)
  : World :=
  mkWorld (mkDatabase (users (db w) ++ [new_user (db w) form salt])
                      (blog_posts (db w)) (comments (db w)))
          (Some (user_id (new_user (db w) form salt))) (flashed w).

Lemma email_not_taken (e : string) (d : Database) :
  User_by_email e d = None -> email_taken e d = false.
Proof.
  unfold User_by_email, email_taken. intros H.
  destruct (existsb _ _) eqn:E; [|reflexivity].
  apply existsb_exists in E. destruct E as (u & Hin & Hu).
  apply (find_none _ _ H) in Hin. congruence.
Qed.

Lemma User_by_email_new (e : string) (us : list User) (u : User)
    (ps : list BlogPost) (cs : list Comment) :
  User_by_email e (mkDatabase us ps cs) = None -> user_email u = e ->
  User_by_email e (mkDatabase (us ++ [u]) ps cs) = Some u.
Proof.
  unfold User_by_email. cbn [users]. intros Hnone He.
  induction us as [|v us IH]; cbn in *.
  - now rewrite He, String.eqb_refl.
  - destruct (String.eqb (user_email v) e); [discriminate|]. now apply IH.
Qed.

(** Registering an email no user has stores the new row, with the hash of
    the password, and logs the new user in. *)
Lemma register_new (w : World) (form : RegisterForm) (salt : string) :
  (0 < iterations)%N -> is_salt salt = true ->
  User_by_email (register_email form) (db w) = None ->
  serve iterations (CallRegister (POST form true) salt) w
  = (Normal (Redirect "get_all_posts" None), registered w form salt).
Proof.
  intros Hit Hsalt Hnone. destruct (is_salt_facts _ Hsalt) as [Hne _].
  run_view. rewrite Hnone. rewrite generate_stored by assumption.
  cbn -[email_taken digest stored_method]. rewrite (email_not_taken _ _ Hnone).
  reflexivity.
Qed.

(** What [login] answers for a user whose stored hash was made from the
    password [p]: it compares digests. *)
Lemma login_compares_digests (w : World) (u : User) (form : LoginForm)
    (salt p : string) :
  (0 < iterations)%N -> is_salt salt = true ->
  User_by_email (login_email form) (db w) = Some u ->
  user_password u
  = stored_method iterations ++ "$" ++ salt ++ "$" ++ digest iterations salt p ->
  serve iterations (CallLogin (POST form true)) w
  = if String.eqb (digest iterations salt (login_password form))
                  (digest iterations salt p)
    then (Normal (Redirect "get_all_posts" None),
          mkWorld (db w) (Some (user_id u)) (flashed w))
    else (Normal (Render "login.html" NoArgs),
          mkWorld (db w) (login_id w)
                  (flashed w ++ ["Incorrect password, try again!"])).
Proof.
  intros Hit Hsalt Hu Hpw. destruct (is_salt_facts _ Hsalt) as [Hne Hcount].
  run_view. rewrite Hu, Hpw. rewrite check_stored by assumption.
  destruct (String.eqb _ _); reflexivity.
Qed.

(** C7, as the code has it: after a registration with password [p], a login
    with [p] is accepted, in any later world that has the same database; a
    login with [q] is refused when the PBKDF2 digest of [q] under the stored
    salt differs from that of [p], and only then. *)
Theorem login_after_register (w w2 : World) (form : RegisterForm)
    (salt q : string) :
  (0 < iterations)%N -> is_salt salt = true ->
  User_by_email (register_email form) (db w) = None ->
  db w2 = db (snd (serve iterations (CallRegister (POST form true) salt) w)) ->
  let accepted :=
    (Normal (Redirect "get_all_posts" None),
     mkWorld (db w2) (Some (user_id (new_user (db w) form salt)))
             (flashed w2)) in
  let refused :=
    (Normal (Render "login.html" NoArgs),
     mkWorld (db w2) (login_id w2)
             (flashed w2 ++ ["Incorrect password, try again!"])) in
  let attempt (password : string) :=
    serve iterations
      (CallLogin (POST (mkLoginForm (register_email form) password) true)) w2 in
  attempt (register_password form) = accepted
  /\ (digest iterations salt q <> digest iterations salt (register_password form)
      -> attempt q = refused)
  /\ (attempt q = refused
      -> digest iterations salt q
         <> digest iterations salt (register_password form)).
Proof.
  intros Hit Hsalt Hnone Hdb accepted refused attempt.
  rewrite register_new in Hdb by assumption. cbn [snd registered db] in Hdb.
  assert (Hu : User_by_email (register_email form) (db w2)
               = Some (new_user (db w) form salt)).
  { rewrite Hdb. destruct (db w) as [us ps cs] eqn:Hd. cbn [users blog_posts comments].
    apply User_by_email_new; [exact Hnone | reflexivity]. }
  assert (Hlogin : forall password,
    attempt password
    = if String.eqb (digest iterations salt password)
                    (digest iterations salt (register_password form))
      then accepted else refused).
  { intros password. unfold attempt.
    now rewrite (login_compares_digests w2 (new_user (db w) form salt)
                   (mkLoginForm (register_email form) password) salt
                   (register_password form) Hit Hsalt Hu eq_refl). }
  repeat split.
  - now rewrite Hlogin, String.eqb_refl.
  - intros Hneq. rewrite Hlogin. apply String.eqb_neq in Hneq. now rewrite Hneq.
  - rewrite Hlogin. intros Hr Heq. rewrite Heq, String.eqb_refl in Hr.
    unfold accepted, refused in Hr. discriminate.
Qed.

End Login.

(** * Worked requests

    A small site, built by the requests of [history] from the empty world:
    the administrator registers and writes two posts, a visitor registers
    and comments on the first.  [iterations] is the count of werkzeug 2.0;
    the digests are not computed, no request below reads them. *)

Section Examples.

Import Hashlib Security.
Local Open Scope string_scope.

Definition default_iterations : N := 260000.

Definition admin_form : RegisterForm :=
  mkRegisterForm "admin@x.com" "s3cret" "Admin".

Definition visitor_form : RegisterForm :=
  mkRegisterForm "a@x.com" "pw1" "A".

Definition admin : User :=
  new_user default_iterations empty_db admin_form "abcd1234".

Definition visitor : User :=
  new_user default_iterations (mkDatabase [admin] [] []) visitor_form "wxyz5678".

Definition first_form : CreatePostForm :=
  mkCreatePostForm "T1" "first" "http://i/1.png" None "body".

Definition second_form : CreatePostForm :=
  mkCreatePostForm "T2" "second" "http://i/2.png" None "text".

Definition first_post : BlogPost :=
  mkBlogPost 1 (Some 1) "T1" "first" "April 03, 2024" "body" "http://i/1.png".

Definition second_post : BlogPost :=
  mkBlogPost 2 (Some 1) "T2" "second" "April 04, 2024" "text" "http://i/2.png".

Definition blog : Database :=
  mkDatabase [admin; visitor] [first_post; second_post]
             [mkComment 1 "hello" (Some 2) (Some 1)].

Definition as_admin : World := mkWorld blog (Some 1) [].
Definition as_visitor : World := mkWorld blog (Some 2) [].
Definition logged_out : World := mkWorld blog None [].

Definition history : list Call :=
  [CallRegister (POST admin_form true) "abcd1234";
   CallNewPost (POST first_form true) (mkDate 2024 4 3);
   CallNewPost (POST second_form true) (mkDate 2024 4 4);
   CallLogout;
   CallRegister (POST visitor_form true) "wxyz5678";
   CallShowPost 1 (POST (mkCommentForm "hello") true)].

Definition today : Date := mkDate 2024 4 5.

Ltac serve_step :=
  lazy -[digest stored_method append Security.generate_password_hash
         Security.check_password_hash];
  reflexivity.

Lemma history_builds_blog :
  run default_iterations history empty_world = as_visitor.
Proof.
  unfold history. cbn [run].
  rewrite (register_new default_iterations empty_world admin_form "abcd1234")
    by reflexivity.
  cbn [snd].
  replace (registered default_iterations empty_world admin_form "abcd1234")
    with (mkWorld (mkDatabase [admin] [] []) (Some 1) []) by reflexivity.
  replace (serve default_iterations
             (CallNewPost (POST first_form true) (mkDate 2024 4 3))
             (mkWorld (mkDatabase [admin] [] []) (Some 1) []))
    with (Normal (Redirect "get_all_posts" None),
          mkWorld (mkDatabase [admin] [first_post] []) (Some 1) [])
    by (symmetry; serve_step).
  cbn [snd].
  replace (serve default_iterations
             (CallNewPost (POST second_form true) (mkDate 2024 4 4))
             (mkWorld (mkDatabase [admin] [first_post] []) (Some 1) []))
    with (Normal (Redirect "get_all_posts" None),
          mkWorld (mkDatabase [admin] [first_post; second_post] [])
                  (Some 1) [])
    by (symmetry; serve_step).
  cbn [snd].
  replace (serve default_iterations CallLogout
             (mkWorld (mkDatabase [admin] [first_post; second_post] [])
                      (Some 1) []))
    with (Normal (Redirect "get_all_posts" None),
          mkWorld (mkDatabase [admin] [first_post; second_post] []) None [])
    by (symmetry; serve_step).
  cbn [snd].
  rewrite (register_new default_iterations
             (mkWorld (mkDatabase [admin] [first_post; second_post] []) None [])
             visitor_form "wxyz5678") by reflexivity.
  cbn [snd].
  replace (registered default_iterations
             (mkWorld (mkDatabase [admin] [first_post; second_post] []) None [])
             visitor_form "wxyz5678")
    with (mkWorld (mkDatabase [admin; visitor] [first_post; second_post] [])
                  (Some 2) []) by reflexivity.
  serve_step.
Qed.

Definition duplicate_form : CreatePostForm :=
  mkCreatePostForm "T1" "again" "http://i/3.png" None "more".

Definition edit_form : CreatePostForm :=
  mkCreatePostForm "T3" "third" "http://i/3.png" (Some (PyUser visitor)) "new".

Definition third_post : BlogPost :=
  mkBlogPost 2 (Some 2) "T3" "third" "April 04, 2024" "new" "http://i/3.png".

(** C2 at work: a caller who is not logged in deletes the first post. *)
Lemma delete_post_logged_out :
  BlogPost_get 1 (db logged_out) = Some first_post
  /\ exists w',
       serve default_iterations (CallDelete 1) logged_out
       = (Normal (Redirect "get_all_posts" None), w')
       /\ BlogPost_get 1 (db w') = None
       /\ blog_posts (db w')
          = filter (fun q => negb (Nat.eqb (post_id q) 1))
                   (blog_posts (db logged_out))
       /\ login_id w' = login_id logged_out.
Proof.
  split; [reflexivity|].
  apply (delete_post_not_gated default_iterations logged_out 1 first_post).
  reflexivity.
Defined.

(** C10 at work: nobody has post 9. *)
Lemma delete_post_9_faults :
  BlogPost_get 9 (db logged_out) = None
  /\ serve default_iterations (CallDelete 9) logged_out
     = (Fault (UnmappedInstanceError "NoneType"), logged_out).
Proof.
  split; [reflexivity|].
  apply (delete_missing_post_faults default_iterations logged_out 9).
  reflexivity.
Defined.

(** C5 does not hold of the code: the administrator editing post 9, which
    does not exist, gets a server error, not a handled [NotFound]. *)
Lemma edit_post_9_is_a_fault :
  serve default_iterations (CallEditPost 9 (POST edit_form true)) as_admin
  = (Fault (AttributeError "NoneType" "title"), as_admin).
Proof. serve_step. Qed.

Lemma edit_missing_post_faults_at_9 :
  is_admin as_admin = true
  /\ BlogPost_get 9 (db as_admin) = None
  /\ serve default_iterations (CallEditPost 9 GET) as_admin
     = (Fault (AttributeError "NoneType" "title"), as_admin).
Proof.
  split; [reflexivity|]. split; [reflexivity|].
  apply (edit_missing_post_faults default_iterations as_admin 9 GET);
    reflexivity.
Defined.

(** C4 does not hold of the code: a second post titled "T1" ends in a
    server error, not in a handled [DuplicateTitle]. *)
Lemma second_T1_is_a_fault :
  serve default_iterations (CallNewPost (POST duplicate_form true) today)
        as_admin
  = (Fault (IntegrityError "blog_posts.title"), as_admin).
Proof. serve_step. Qed.

Lemma duplicate_title_faults_at_T1 :
  is_admin as_admin = true
  /\ In first_post (blog_posts (db as_admin))
  /\ post_title first_post = form_title first_form
  /\ serve default_iterations (CallNewPost (POST first_form true) today)
           as_admin
     = (Fault (IntegrityError "blog_posts.title"), as_admin).
Proof.
  split; [reflexivity|]. split; [left; reflexivity|]. split; [reflexivity|].
  apply (duplicate_title_faults default_iterations as_admin first_form today
           first_post); [reflexivity | left; reflexivity | reflexivity].
Defined.

(** C6 at work: the email of the visitor is taken. *)
Lemma register_visitor_again :
  In visitor (users (db logged_out))
  /\ user_email visitor = register_email visitor_form
  /\ serve default_iterations (CallRegister (POST visitor_form true) "qrst9012")
           logged_out
     = (Normal (Redirect "login" None),
        mkWorld (db logged_out) (login_id logged_out)
                (flashed logged_out
                 ++ ["Email already exists! Please login instead."]))%list.
Proof.
  split; [right; left; reflexivity|]. split; [reflexivity|].
  apply (register_duplicate_email default_iterations logged_out visitor_form
           "qrst9012" visitor); [right; left; reflexivity | reflexivity].
Defined.

(** The least id that is not an INTEGER of SQLite; the route
    [/post/<int:post_id>] takes it as it takes any number. *)
Definition too_large : nat := 2 ^ 63.

Lemma too_large_overflows : sqlite_integer too_large = false.
Proof. unfold sqlite_integer, too_large. apply Nat.ltb_irrefl. Qed.

(** No post of [blog] has the id [too_large]. *)
Lemma too_large_is_no_post : BlogPost_get too_large blog = None.
Proof.
  assert (H : forall n, n < 63 -> Nat.eqb n too_large = false).
  { intros n Hn. apply Nat.eqb_neq. unfold too_large.
    pose proof (Nat.pow_gt_lin_r 2 63 (le_n 2)) as Hb.
    revert Hb. generalize (2 ^ 63). intros m Hb. lia. }
  unfold BlogPost_get, blog. cbn [blog_posts find].
  rewrite (H (post_id first_post)) by (unfold first_post; cbn [post_id]; lia).
  rewrite (H (post_id second_post)) by (unfold second_post; cbn [post_id]; lia).
  reflexivity.
Qed.

(** C9 does not hold of the code: a caller who is not logged in and
    comments on the post [too_large] is not redirected to the login page;
    the lookup of the post, which comes first, ends the request in a server
    error, and nothing is flashed. *)
Lemma anonymous_comment_overflows :
  current_user_of logged_out = AnonymousUserMixin
  /\ serve default_iterations
           (CallShowPost too_large (POST (mkCommentForm "hi") true)) logged_out
     = (Fault OverflowError, logged_out).
Proof.
  split; [reflexivity|].
  exact (proj1 (lookup_overflows default_iterations logged_out too_large
                  too_large_is_no_post too_large_overflows)
               (POST (mkCommentForm "hi") true)).
Qed.

(** C9 at work, as the code has it: a comment from a caller who is not
    logged in, on post 1. *)
Lemma comment_logged_out :
  current_user_of logged_out = AnonymousUserMixin
  /\ sqlite_integer 1 = true
  /\ serve default_iterations
           (CallShowPost 1 (POST (mkCommentForm "hi") true)) logged_out
     = (Normal (Redirect "login" None),
        mkWorld (db logged_out) (login_id logged_out)
                (flashed logged_out
                 ++ ["You need to be logged in to make a comment!"]))%list
  /\ db (snd (serve default_iterations
                (CallShowPost 1 (POST (mkCommentForm "hi") true)) logged_out))
     = db logged_out.
Proof.
  destruct (comment_needs_login default_iterations logged_out 1
              (mkCommentForm "hi") eq_refl) as (Hredirect & _ & Hdb).
  split; [reflexivity|]. split; [reflexivity|].
  split; [apply Hredirect; reflexivity | exact Hdb].
Defined.

Definition after_edit : World :=
  mkWorld (mkDatabase [admin; visitor] [first_post; third_post]
                      [mkComment 1 "hello" (Some 2) (Some 1)])
          (Some 1) [].

(** C8 at work: the administrator rewrites the second post. *)
Lemma edit_second_post :
  serve default_iterations (CallEditPost 2 (POST edit_form true)) as_admin
  = (Normal (Redirect "show_post" (Some 2)), after_edit)
  /\ exists (p : BlogPost) (author : option User),
       BlogPost_get 2 (db as_admin) = Some p
       /\ form_author edit_form
          = Some (match author with Some u => PyUser u | None => PyNone end)
       /\ Redirect "show_post" (Some 2) = Redirect "show_post" (Some 2)
       /\ blog_posts (db after_edit)
          = map (fun q => if Nat.eqb (post_id q) 2
                          then edited edit_form author q else q)
                (blog_posts (db as_admin))
       /\ BlogPost_get 2 (db after_edit) = Some (edited edit_form author p)
       /\ users (db after_edit) = users (db as_admin)
       /\ comments (db after_edit) = comments (db as_admin)
       /\ login_id after_edit = login_id as_admin.
Proof.
  split; [serve_step|].
  apply (edit_post_overwrites default_iterations as_admin after_edit 2
           edit_form (Redirect "show_post" (Some 2))).
  serve_step.
Defined.

(** C3 does not hold of the code: the visitor comments on post 9, which does
    not exist, and a comment with no post is stored. *)
Lemma comment_on_post_9_is_stored :
  run default_iterations history empty_world = as_visitor
  /\ comments (db (snd (serve default_iterations
                          (CallShowPost 9 (POST (mkCommentForm "lost") true))
                          as_visitor)))
     = [mkComment 1 "hello" (Some 2) (Some 1);
        mkComment 2 "lost" (Some 2) None]
  /\ references_resolve
       (db (snd (serve default_iterations
                   (CallShowPost 9 (POST (mkCommentForm "lost") true))
                   as_visitor)))
     = false.
Proof.
  split; [exact history_builds_blog|]. split; serve_step.
Qed.

Lemma comments_stay_sound_after_history :
  references_sound (db empty_world) = true
  /\ references_sound
       (db (run default_iterations
              (history ++ [CallShowPost 9 (POST (mkCommentForm "lost") true);
                           CallDelete 1])
              empty_world))
     = true.
Proof.
  split; [reflexivity|].
  apply (comments_stay_sound default_iterations). reflexivity.
Defined.

Definition just_admin : World := mkWorld (mkDatabase [admin] [] []) None [].

Lemma register_admin :
  serve default_iterations (CallRegister (POST admin_form true) "abcd1234")
        empty_world
  = (Normal (Redirect "get_all_posts" None),
     mkWorld (mkDatabase [admin] [] []) (Some 1) []).
Proof. rewrite register_new by reflexivity. reflexivity. Qed.

(** C7 does not hold of the code: the administrator registers with the
    password "s3cret"; a login with "s3cret" followed by a NUL character, a
    different password, is accepted. *)
Lemma nul_padded_password_logs_in :
  String.eqb (nul_padded "s3cret") "s3cret" = false
  /\ serve default_iterations (CallRegister (POST admin_form true) "abcd1234")
           empty_world
     = (Normal (Redirect "get_all_posts" None),
        mkWorld (db just_admin) (Some 1) [])
  /\ serve default_iterations
           (CallLogin (POST (mkLoginForm "admin@x.com" (nul_padded "s3cret"))
                            true))
           just_admin
     = (Normal (Redirect "get_all_posts" None),
        mkWorld (db just_admin) (Some 1) []).
Proof.
  split; [reflexivity|]. split; [exact register_admin|].
  rewrite (login_compares_digests default_iterations just_admin admin
             (mkLoginForm "admin@x.com" (nul_padded "s3cret"))
             "abcd1234" "s3cret") by reflexivity.
  cbn [login_password].
  rewrite (digest_key default_iterations "abcd1234" "s3cret"
             (nul_padded "s3cret")).
  - rewrite String.eqb_refl. reflexivity.
  - apply hmac_key_nul_padded. unfold block_size. cbn. lia.
Qed.

(** C7 at work, as the code has it. *)
Lemma login_after_register_admin :
  (0 < default_iterations)%N
  /\ is_salt "abcd1234" = true
  /\ User_by_email (register_email admin_form) (db empty_world) = None
  /\ db just_admin
     = db (snd (serve default_iterations
                  (CallRegister (POST admin_form true) "abcd1234") empty_world))
  /\ (serve default_iterations
        (CallLogin (POST (mkLoginForm (register_email admin_form)
                                      (register_password admin_form)) true))
        just_admin
      = (Normal (Redirect "get_all_posts" None),
         mkWorld (db just_admin)
                 (Some (user_id (new_user default_iterations (db empty_world)
                                          admin_form "abcd1234")))
                 (flashed just_admin))
      /\ (digest default_iterations "abcd1234" "guess"
          <> digest default_iterations "abcd1234" (register_password admin_form)
          -> serve default_iterations
               (CallLogin (POST (mkLoginForm (register_email admin_form)
                                             "guess") true))
               just_admin
             = (Normal (Render "login.html" NoArgs),
                mkWorld (db just_admin) (login_id just_admin)
                        (flashed just_admin
                         ++ ["Incorrect password, try again!"])%list))
      /\ (serve default_iterations
            (CallLogin (POST (mkLoginForm (register_email admin_form)
                                          "guess") true))
            just_admin
          = (Normal (Render "login.html" NoArgs),
             mkWorld (db just_admin) (login_id just_admin)
                     (flashed just_admin
                      ++ ["Incorrect password, try again!"])%list)
          -> digest default_iterations "abcd1234" "guess"
             <> digest default_iterations "abcd1234"
                       (register_password admin_form))).
Proof.
  assert (Hdb : db just_admin
                = db (snd (serve default_iterations
                             (CallRegister (POST admin_form true) "abcd1234")
                             empty_world))).
  { rewrite register_admin. reflexivity. }
  split; [reflexivity|]. split; [reflexivity|]. split; [reflexivity|].
  split; [exact Hdb|].
  apply (login_after_register default_iterations empty_world just_admin
           admin_form "abcd1234" "guess");
    [reflexivity | reflexivity | reflexivity | exact Hdb].
Defined.

End Examples.

(** * Further properties of the views *)

Ltac eval_request :=
  lazy -[digest stored_method append
         Security.generate_password_hash Security.check_password_hash];
  reflexivity.

Section Frames.

Variable iterations : N.

(** The request went through: the view returned a response. *)
Definition succeeded (r : Reply) : bool :=
  match r with
  | Normal _ => true
  | _ => false
  end.

(** The request submits a form that validates. *)
Definition submits {F : Type} (req : Request F) : bool :=
  match validate_on_submit req with
  | Some _ => true
  | None => false
  end.

(** The requests that only read: every route but [logout] and [delete_post],
    when no validated form comes with the request. *)
Definition reads_only (c : Call) : bool :=
  match c with
  | CallIndex | CallAbout | CallContact => true
  | CallRegister req _ => negb (submits req)
  | CallLogin req => negb (submits req)
  | CallShowPost _ req => negb (submits req)
  | CallNewPost req _ => negb (submits req)
  | CallEditPost _ req => negb (submits req)
  | CallLogout | CallDelete _ => false
  end.

(** The requests that may write to [blog_posts]: the administrator
    submitting the form of a new or an edited post, and anyone deleting. *)
Definition may_write_posts (c : Call) (w : World) : bool :=
  match c with
  | CallNewPost req _ => is_admin w && submits req
  | CallEditPost _ req => is_admin w && submits req
  | CallDelete _ => true
  | _ => false
  end.

(** X1: a logged-in user who is not user 1 is answered 403 by [add_new_post]
    and by [edit_post], whatever the request carries, and the world is
    unchanged. *)
Theorem non_admin_forbidden (w : World) (u : User)
    (req : Request CreatePostForm) (today : Date) (post_id : nat) :
  current_user_of w = LoggedIn u ->
  user_id u <> 1 ->
  serve iterations (CallNewPost req today) w = (Aborted 403, w)
  /\ serve iterations (CallEditPost post_id req) w = (Aborted 403, w).
Proof.
  intros Hcu Hid.
  assert (Hna : is_admin w = false).
  { unfold is_admin. rewrite Hcu. now apply Nat.eqb_neq. }
  unfold serve, route, add_new_post, edit_post.
  rewrite !admin_only_rejects by exact Hna. rewrite Hcu. split; reflexivity.
Qed.

(** X2: a request that does not go through changes nothing: whenever the reply
    is an abort or a server error, the database, the login and the flashed
    messages are as they were. *)
Theorem failed_request_changes_nothing (c : Call) (w : World) :
  succeeded (fst (serve iterations c w)) = false ->
  snd (serve iterations c w) = w.
Proof.
  destruct w as [d l m].
  destruct c as [|req salt|req| |id req| | |req today|id req|id].
  - discriminate.
  - run_view. destruct req as [|form [|]]; cbn; try discriminate.
    destruct (User_by_email _ _); cbn; [discriminate|].
    destruct (Security.generate_password_hash _ _ _ _);
      cbn -[email_taken flush]; [|reflexivity].
    destruct (flush _ _) as [[d' ks]|e]; [discriminate|destruct e; reflexivity].
  - run_view. destruct req as [|form [|]]; cbn; try discriminate.
    destruct (User_by_email _ _); cbn; [|discriminate].
    destruct (Security.check_password_hash _ _ _) as [[|]|];
      (discriminate || reflexivity).
  - discriminate.
  - run_view.
    destruct (BlogPost_get id d) as [p|];
      [|destruct (sqlite_integer id); [|intros _; reflexivity]];
      (destruct req as [|form [|]]; cbn -[flush]; try discriminate;
       destruct (current_user_of _); cbn -[flush]; [discriminate|];
       destruct (flush _ _) as [[d' ks]|e];
       [discriminate|destruct e; reflexivity]).
  - discriminate.
  - discriminate.
  - unfold serve, route, add_new_post.
    destruct (is_admin (mkWorld d l m)) eqn:Hadm.
    2:{ now rewrite admin_only_rejects. }
    rewrite admin_only_enters by assumption.
    run_view. destruct req as [|form [|]]; cbn -[flush strftime_B_d_Y];
      try discriminate.
    destruct (current_user_of _); cbn -[flush strftime_B_d_Y]; [reflexivity|].
    destruct (flush _ _) as [[d' ks]|e]; [discriminate|destruct e; reflexivity].
  - unfold serve, route, edit_post.
    destruct (is_admin (mkWorld d l m)) eqn:Hadm.
    2:{ now rewrite admin_only_rejects. }
    rewrite admin_only_enters by assumption.
    run_view. destruct (BlogPost_get id d);
      [|destruct (sqlite_integer id); reflexivity].
    destruct req as [|form [|]]; cbn -[flush]; try discriminate.
    destruct (form_author form) as [[|s|u]|]; cbn -[flush]; try reflexivity;
      (destruct (flush _ _) as [[d' ks]|e];
       [discriminate|destruct e; reflexivity]).
  - run_view. destruct (BlogPost_get id d);
      [|destruct (sqlite_integer id); reflexivity].
    cbn -[flush].
    destruct (flush _ _) as [[d' ks]|e]; [discriminate|destruct e; reflexivity].
Qed.


(** X3: a request that only reads leaves the world as it was: the pages of the
    index, of a post, of the forms, and any form that does not validate,
    change neither the database nor the login nor the flashed messages. *)
Theorem read_requests_change_nothing (c : Call) (w : World) :
  reads_only c = true -> snd (serve iterations c w) = w.
Proof.
  destruct w as [d l m].
  destruct c as [|req salt|req| |id req| | |req today|id req|id];
    cbn [reads_only]; try discriminate; try reflexivity.
  - destruct req as [|form [|]]; (discriminate || reflexivity).
  - destruct req as [|form [|]]; (discriminate || reflexivity).
  - destruct req as [|form [|]]; try discriminate; intros _; run_view;
      (destruct (BlogPost_get id d); [|destruct (sqlite_integer id)]);
      reflexivity.
  - intros Hreq. unfold serve, route, add_new_post.
    destruct (is_admin (mkWorld d l m)) eqn:Hadm.
    2:{ now rewrite admin_only_rejects. }
    rewrite admin_only_enters by assumption.
    destruct req as [|form [|]]; (discriminate || reflexivity).
  - intros Hreq. unfold serve, route, edit_post.
    destruct (is_admin (mkWorld d l m)) eqn:Hadm.
    2:{ now rewrite admin_only_rejects. }
    rewrite admin_only_enters by assumption.
    run_view. destruct (BlogPost_get id d);
      [|destruct (sqlite_integer id); reflexivity].
    destruct req as [|form [|]]; (discriminate || reflexivity).
Qed.

(** X4: the table of posts is written by the administrator's forms and by
    [delete_post], and by nothing else: registering, logging in or out,
    commenting, and every request of anyone who is not user 1 other than a
    delete, leave [blog_posts] as it was. *)
Theorem posts_written_only_by_admin_or_delete (c : Call) (w : World) :
  may_write_posts c w = false ->
  blog_posts (db (snd (serve iterations c w))) = blog_posts (db w).
Proof.
  destruct w as [d l m].
  destruct c as [|req salt|req| |id req| | |req today|id req|id];
    cbn [may_write_posts]; try discriminate; try reflexivity; intros Hw.
  - run_view. destruct req as [|form [|]]; cbn; try reflexivity.
    destruct (User_by_email _ _); cbn; [reflexivity|].
    destruct (Security.generate_password_hash _ _ _ _); cbn; [|reflexivity].
    destruct (email_taken _ _); reflexivity.
  - run_view. destruct req as [|form [|]]; cbn; try reflexivity.
    destruct (User_by_email _ _); cbn; [|reflexivity].
    destruct (Security.check_password_hash _ _ _) as [[|]|]; reflexivity.
  - run_view.
    destruct (BlogPost_get id d) as [p|];
      [|destruct (sqlite_integer id); [|reflexivity]];
      (destruct req as [|form [|]]; cbn; try reflexivity;
       destruct (current_user_of _); reflexivity).
  - unfold serve, route, add_new_post.
    destruct (is_admin (mkWorld d l m)) eqn:Hadm.
    2:{ now rewrite admin_only_rejects. }
    rewrite admin_only_enters by assumption.
    destruct req as [|form [|]]; (discriminate || reflexivity).
  - unfold serve, route, edit_post.
    destruct (is_admin (mkWorld d l m)) eqn:Hadm.
    2:{ now rewrite admin_only_rejects. }
    rewrite admin_only_enters by assumption.
    run_view. destruct (BlogPost_get id d);
      [|destruct (sqlite_integer id); reflexivity].
    destruct req as [|form [|]]; (discriminate || reflexivity).
Qed.

(** *** What a commit may do to the tables *)

(** After a request the database is the one before, or the result of one
    flush that went through. *)
Lemma serve_db (c : Call) (w : World) :
  db (snd (serve iterations c w)) = db w
  \/ exists cs ks, flush cs (db w) = Ok (db (snd (serve iterations c w)), ks).
Proof.
  destruct w as [d l m].
  destruct c as [|req salt|req| |id req| | |req today|id req|id];
    try (left; reflexivity).
  - run_view. destruct req as [|form [|]]; cbn; try (left; reflexivity).
    destruct (User_by_email _ _); cbn; [left; reflexivity|].
    destruct (Security.generate_password_hash _ _ _ _) as [h|];
      cbn -[flush]; [|left; reflexivity].
    destruct (flush _ _) as [[d' ks]|e] eqn:Hf.
    + right. eexists _, ks. exact Hf.
    + left. destruct e; reflexivity.
  - run_view. destruct req as [|form [|]]; cbn; try (left; reflexivity).
    destruct (User_by_email _ _); cbn; [|left; reflexivity].
    destruct (Security.check_password_hash _ _ _) as [[|]|]; left; reflexivity.
  - run_view.
    destruct (BlogPost_get id d) as [p|];
      [|destruct (sqlite_integer id); [|left; reflexivity]];
      (destruct req as [|form [|]]; cbn -[flush]; try (left; reflexivity);
       destruct (current_user_of _) as [|u]; cbn -[flush];
       [left; reflexivity|];
       destruct (flush _ _) as [[d' ks]|e] eqn:Hf;
       [right; eexists _, ks; exact Hf | left; destruct e; reflexivity]).
  - unfold serve, route, add_new_post.
    destruct (is_admin (mkWorld d l m)) eqn:Hadm.
    2:{ left. now rewrite admin_only_rejects. }
    rewrite admin_only_enters by assumption.
    run_view. destruct req as [|form [|]]; cbn -[flush strftime_B_d_Y];
      try (left; reflexivity).
    destruct (current_user_of _) as [|u]; cbn -[flush strftime_B_d_Y];
      [left; reflexivity|].
    destruct (flush _ _) as [[d' ks]|e] eqn:Hf.
    + right. eexists _, ks. exact Hf.
    + left. destruct e; reflexivity.
  - unfold serve, route, edit_post.
    destruct (is_admin (mkWorld d l m)) eqn:Hadm.
    2:{ left. now rewrite admin_only_rejects. }
    rewrite admin_only_enters by assumption.
    run_view. destruct (BlogPost_get id d);
      [|destruct (sqlite_integer id); left; reflexivity].
    destruct req as [|form [|]]; cbn -[flush]; try (left; reflexivity).
    destruct (form_author form) as [[|s|u]|]; cbn -[flush];
      try (left; reflexivity);
      (destruct (flush _ _) as [[d' ks]|e] eqn:Hf;
       [right; eexists _, ks; exact Hf | left; destruct e; reflexivity]).
  - run_view. destruct (BlogPost_get id d);
      [|destruct (sqlite_integer id); left; reflexivity].
    cbn -[flush].
    destruct (flush _ _) as [[d' ks]|e] eqn:Hf.
    + right. eexists _, ks. exact Hf.
    + left. destruct e; reflexivity.
Qed.

End Frames.

(** * What the tables keep

    The views write to the database through [commit] only, so what every
    single change keeps, every sequence of requests keeps. *)

Section Tables.

Variable iterations : N.

(** [l'] is [l] with rows added at its end. *)
Definition extends {A : Type} (l l' : list A) : Prop :=
  exists more, l' = l ++ more.

Lemma extends_refl {A : Type} (l : list A) : extends l l.
Proof. exists []. now rewrite app_nil_r. Qed.

Lemma extends_trans {A : Type} (a b c : list A) :
  extends a b -> extends b c -> extends a c.
Proof. intros [x ->] [y ->]. exists (x ++ y). now rewrite app_assoc. Qed.

Section Kept.

(** A relation between the database before and the database after. *)
Variable R : Database -> Database -> Prop.
Hypothesis R_refl : forall d, R d d.
Hypothesis R_trans : forall a b c, R a b -> R b c -> R a c.
Hypothesis R_change :
  forall c d d' k, apply_change c d = Ok (d', k) -> R d d'.

Lemma flush_keeps (cs : list Change) :
  forall d d' ks, flush cs d = Ok (d', ks) -> R d d'.
Proof.
  induction cs as [|c cs IH]; intros d d' ks; cbn [flush].
  - intros [= <- <-]. apply R_refl.
  - destruct (apply_change c d) as [[d1 k]|e] eqn:Hc; [|discriminate].
    destruct (flush cs d1) as [[d2 ks2]|e] eqn:Hf; [|discriminate].
    intros [= <- <-].
    exact (R_trans _ _ _ (R_change _ _ _ _ Hc) (IH _ _ _ Hf)).
Qed.

Lemma serve_keeps (c : Call) (w : World) :
  R (db w) (db (snd (serve iterations c w))).
Proof.
  destruct (serve_db iterations c w) as [-> | (cs & ks & Hf)].
  - apply R_refl.
  - exact (flush_keeps _ _ _ _ Hf).
Qed.

Lemma run_keeps (cs : list Call) :
  forall w, R (db w) (db (run iterations cs w)).
Proof.
  induction cs as [|c cs IH]; intros w; cbn [run].
  - apply R_refl.
  - exact (R_trans _ _ _ (serve_keeps c w) (IH _)).
Qed.

End Kept.

(** *** Users *)

Lemma apply_change_users (c : Change) (d d' : Database) (k : option nat) :
  apply_change c d = Ok (d', k) -> extends (users d) (users d').
Proof.
  destruct c as [e p n|t s b i a dt|t a ai p pi|id a|id]; unfold apply_change.
  - destruct (email_taken _ _); [discriminate|]. intros [= <- <-].
    cbn [users]. now eexists.
  - destruct (title_taken _ _ _); [discriminate|]. intros [= <- <-].
    apply extends_refl.
  - intros [= <- <-]. apply extends_refl.
  - destruct (BlogPost_get _ _); [|discriminate].
    destruct (match a with Title t => _ | _ => false end); [discriminate|].
    intros [= <- <-]. apply extends_refl.
  - intros [= <- <-]. apply extends_refl.
Qed.

(** X5: no request removes a user or changes one: after any sequence of
    requests the table of users is the one before, in its order, with the
    rows of the registrations since at its end.  An account cannot be
    deleted, nor its email, name or password changed. *)
Theorem users_only_grow (cs : list Call) (w : World) :
  extends (users (db w)) (users (db (run iterations cs w))).
Proof.
  apply (run_keeps (fun d d' => extends (users d) (users d'))).
  - intros d. apply extends_refl.
  - intros a b c. apply extends_trans.
  - exact apply_change_users.
Qed.

(** *** Comments *)

(** The comment [c'] is [c] but for its post, which may have become NULL. *)
Definition kept (c c' : Comment) : Prop :=
  comment_id c' = comment_id c
  /\ comment_text c' = comment_text c
  /\ comment_author_id c' = comment_author_id c
  /\ (comment_post_id c' = comment_post_id c \/ comment_post_id c' = None).

Definition comments_kept (d d' : Database) : Prop :=
  exists old more,
    comments d' = old ++ more /\ Forall2 kept (comments d) old.

Lemma kept_refl (c : Comment) : kept c c.
Proof. repeat split. now left. Qed.

Lemma kept_trans (a b c : Comment) : kept a b -> kept b c -> kept a c.
Proof.
  intros (Hi & Ht & Ha & Hp) (Hi' & Ht' & Ha' & Hp'). repeat split.
  - congruence.
  - congruence.
  - congruence.
  - destruct Hp' as [Hp'|Hp']; [|now right].
    destruct Hp as [Hp|Hp]; [left|right]; congruence.
Qed.

Lemma Forall2_kept_refl (l : list Comment) : Forall2 kept l l.
Proof. induction l; constructor; [apply kept_refl | assumption]. Qed.

Lemma Forall2_kept_trans (a : list Comment) :
  forall b c, Forall2 kept a b -> Forall2 kept b c -> Forall2 kept a c.
Proof.
  induction a as [|x a IH]; intros b c Hab Hbc.
  - inversion Hab; subst. inversion Hbc; subst. constructor.
  - inversion Hab as [|? y ? b' Hxy Hab']; subst.
    inversion Hbc as [|? z ? c' Hyz Hbc']; subst.
    constructor; [exact (kept_trans _ _ _ Hxy Hyz) | exact (IH _ _ Hab' Hbc')].
Qed.

Lemma comments_kept_refl (d : Database) : comments_kept d d.
Proof.
  exists (comments d), []. split; [now rewrite app_nil_r|].
  apply Forall2_kept_refl.
Qed.

Lemma comments_kept_trans (a b c : Database) :
  comments_kept a b -> comments_kept b c -> comments_kept a c.
Proof.
  intros (old & more & Hb & Hab) (old' & more' & Hc & Hbc).
  rewrite Hb in Hbc. apply Forall2_app_inv_l in Hbc.
  destruct Hbc as (l1 & l2 & H1 & H2 & ->).
  exists l1, (l2 ++ more'). split.
  - now rewrite Hc, app_assoc.
  - exact (Forall2_kept_trans _ _ _ Hab H1).
Qed.

Lemma kept_orphan (id : nat) (c : Comment) : kept c (orphan id c).
Proof.
  unfold orphan. destruct (comment_post_id c) as [p|] eqn:Hp.
  - destruct (Nat.eqb p id).
    + repeat split. now right.
    + apply kept_refl.
  - apply kept_refl.
Qed.

Lemma apply_change_comments (c : Change) (d d' : Database) (k : option nat) :
  apply_change c d = Ok (d', k) -> comments_kept d d'.
Proof.
  destruct c as [e p n|t s b i a dt|t a ai p pi|id a|id]; unfold apply_change.
  - destruct (email_taken _ _); [discriminate|]. intros [= <- <-].
    apply (comments_kept_refl d).
  - destruct (title_taken _ _ _); [discriminate|]. intros [= <- <-].
    apply (comments_kept_refl d).
  - intros [= <- <-]. eexists (comments d), _. split; [reflexivity|].
    apply Forall2_kept_refl.
  - destruct (BlogPost_get _ _); [|discriminate].
    destruct (match a with Title t => _ | _ => false end); [discriminate|].
    intros [= <- <-]. apply (comments_kept_refl d).
  - intros [= <- <-]. exists (map (orphan id) (comments d)), [].
    split; [cbn [comments]; now rewrite app_nil_r|].
    induction (comments d) as [|x l IH]; cbn [map]; constructor;
      [apply kept_orphan | exact IH].
Qed.

(** X6: no request removes a comment or edits one: after any sequence of
    requests the comments that were there are still there, in their order,
    with their id, text and author, before the comments written since; of a
    comment only the post can change, and only to NULL. *)
Theorem comments_are_kept (cs : list Call) (w : World) :
  comments_kept (db w) (db (run iterations cs w)).
Proof.
  apply (run_keeps comments_kept).
  - exact comments_kept_refl.
  - exact comments_kept_trans.
  - exact apply_change_comments.
Qed.

(** *** Keys *)

(** What the columns declare: [id] is the primary key of each table,
    [users.email] and [blog_posts.title] are [unique]. *)
Definition keys_unique (d : Database) : Prop :=
  NoDup (map user_id (users d))
  /\ NoDup (map user_email (users d))
  /\ NoDup (map post_id (blog_posts d))
  /\ NoDup (map post_title (blog_posts d))
  /\ NoDup (map comment_id (comments d)).

Lemma next_id_fresh (ids : list nat) : ~ In (next_id ids) ids.
Proof.
  intros Hin.
  assert (H : Forall (fun k => k <= list_max ids) ids)
    by (apply list_max_le; apply Nat.le_refl).
  rewrite Forall_forall in H. apply H in Hin. unfold next_id in Hin. lia.
Qed.

Lemma NoDup_snoc {A : Type} (l : list A) (x : A) :
  NoDup l -> ~ In x l -> NoDup (l ++ [x]).
Proof.
  intros Hnd. induction Hnd as [|y l Hy Hnd IH]; intros Hx; cbn.
  - constructor; [intros [] | constructor].
  - constructor.
    + rewrite in_app_iff. intros [H|[H|[]]]; [contradiction|].
      subst. apply Hx. now left.
    + apply IH. intros H. apply Hx. now right.
Qed.

Lemma email_free (e : string) (d : Database) :
  email_taken e d = false -> ~ In e (map user_email (users d)).
Proof.
  unfold email_taken. intros H Hin. apply in_map_iff in Hin.
  destruct Hin as (u & Hu & Hin).
  assert (Ht : existsb (fun u => String.eqb (user_email u) e) (users d) = true).
  { apply existsb_exists. exists u. split; [exact Hin|].
    rewrite Hu. apply String.eqb_refl. }
  congruence.
Qed.

Lemma title_clash (t : string) (but : option nat) (d : Database) (q : BlogPost) :
  title_taken t but d = false -> In q (blog_posts d) -> post_title q = t ->
  match but with Some id => post_id q = id | None => False end.
Proof.
  unfold title_taken. intros H Hin Ht.
  destruct (existsb _ _) eqn:E in H; [discriminate|].
  rewrite <- Bool.not_true_iff_false in E. rewrite existsb_exists in E.
  destruct but as [id|].
  - destruct (Nat.eqb (post_id q) id) eqn:Hq; [now apply Nat.eqb_eq|].
    exfalso. apply E. exists q. split; [exact Hin|].
    now rewrite Ht, String.eqb_refl, Hq.
  - apply E. exists q. split; [exact Hin|].
    now rewrite Ht, String.eqb_refl.
Qed.

Lemma NoDup_map_filter {A B : Type} (f : A -> B) (keep : A -> bool)
    (l : list A) :
  NoDup (map f l) -> NoDup (map f (filter keep l)).
Proof.
  induction l as [|a l IH]; cbn; [auto|].
  intros H. inversion H as [|? ? Hnin Hnd]; subst.
  destruct (keep a); cbn; [|auto].
  constructor; [|auto]. intros Hin. apply Hnin.
  apply in_map_iff in Hin. destruct Hin as (x & Hx & Hin).
  apply filter_In in Hin. apply in_map_iff. exists x. tauto.
Qed.

Lemma orphan_ids (id : nat) (l : list Comment) :
  map comment_id (map (orphan id) l) = map comment_id l.
Proof.
  rewrite map_map. apply map_ext. intros c. unfold orphan.
  destruct (comment_post_id c) as [p|]; [|reflexivity].
  now destruct (Nat.eqb p id).
Qed.

Lemma update_ids (id : nat) (a : PostAttr) (ps : list BlogPost) :
  map post_id (map (fun p => if Nat.eqb (post_id p) id then set_attr a p
                             else p) ps)
  = map post_id ps.
Proof.
  rewrite map_map. apply map_ext. intros p.
  destruct (Nat.eqb _ _); [apply set_attr_id | reflexivity].
Qed.

(** Titles stay distinct when the one post with the id takes a title no
    other post has. *)
Lemma update_titles (id : nat) (t : string) (ps : list BlogPost) :
  NoDup (map post_id ps) -> NoDup (map post_title ps) ->
  (forall q, In q ps -> post_title q = t -> post_id q = id) ->
  NoDup (map post_title
           (map (fun p => if Nat.eqb (post_id p) id then set_attr (Title t) p
                          else p) ps)).
Proof.
  induction ps as [|p ps IH]; cbn [map]; [constructor|].
  intros Hid Hti Hcl.
  inversion Hid as [|? ? Hidp Hid']; subst.
  inversion Hti as [|? ? Htip Hti']; subst.
  constructor.
  - intros Hin. apply in_map_iff in Hin. destruct Hin as (q' & Hq' & Hin).
    apply in_map_iff in Hin. destruct Hin as (q & <- & Hin).
    destruct (Nat.eqb (post_id p) id) eqn:Hp.
    + apply Nat.eqb_eq in Hp. cbn [set_attr post_title] in Hq'.
      destruct (Nat.eqb (post_id q) id) eqn:Hq.
      * apply Nat.eqb_eq in Hq. apply Hidp. apply in_map_iff.
        exists q. split; [congruence | exact Hin].
      * apply Nat.eqb_neq in Hq. apply Hq.
        apply Hcl; [now right | exact Hq'].
    + apply Nat.eqb_neq in Hp.
      destruct (Nat.eqb (post_id q) id) eqn:Hq.
      * cbn [set_attr post_title] in Hq'. apply Hp.
        apply Hcl; [now left | now symmetry].
      * apply Htip. apply in_map_iff. exists q. split; assumption.
  - apply IH; try assumption. intros q Hq. apply Hcl. now right.
Qed.

Lemma update_keeps_titles (id : nat) (a : PostAttr) (ps : list BlogPost) :
  match a with Title _ => False | _ => True end ->
  map post_title (map (fun p => if Nat.eqb (post_id p) id then set_attr a p
                                else p) ps)
  = map post_title ps.
Proof.
  intros Ha. rewrite map_map. apply map_ext. intros p.
  destruct (Nat.eqb _ _); [|reflexivity]. now destruct a.
Qed.

Lemma apply_change_keys (c : Change) (d d' : Database) (k : option nat) :
  apply_change c d = Ok (d', k) -> keys_unique d -> keys_unique d'.
Proof.
  intros H (Hui & Hue & Hpi & Hpt & Hci). revert H.
  destruct c as [e p n|t s b i a dt|t a ai p pi|id a|id]; unfold apply_change.
  - destruct (email_taken e d) eqn:He; [discriminate|]. intros [= <- <-].
    unfold keys_unique. cbn [users blog_posts comments].
    rewrite !map_app. cbn [map user_id user_email].
    repeat split; try assumption.
    + apply NoDup_snoc; [assumption | apply next_id_fresh].
    + apply NoDup_snoc; [assumption | now apply email_free].
  - destruct (title_taken t None d) eqn:Ht; [discriminate|]. intros [= <- <-].
    unfold keys_unique. cbn [users blog_posts comments].
    rewrite !map_app. cbn [map post_id post_title].
    repeat split; try assumption.
    + apply NoDup_snoc; [assumption | apply next_id_fresh].
    + apply NoDup_snoc; [assumption|]. intros Hin.
      apply in_map_iff in Hin. destruct Hin as (q & Hq & Hin).
      exact (title_clash t None d q Ht Hin Hq).
  - intros [= <- <-]. unfold keys_unique. cbn [users blog_posts comments].
    rewrite !map_app. cbn [map comment_id].
    repeat split; try assumption.
    apply NoDup_snoc; [assumption | apply next_id_fresh].
  - destruct (BlogPost_get id d); [|discriminate].
    destruct (match a with Title t => title_taken t (Some id) d | _ => false end)
      eqn:Hcl; [discriminate|].
    intros [= <- <-]. unfold keys_unique. cbn [users blog_posts comments].
    rewrite update_ids. repeat split; try assumption.
    destruct a as [t|s|s|u|s];
      try (rewrite update_keeps_titles; [assumption | exact I]).
    apply update_titles; try assumption.
    intros q Hin Hq. exact (title_clash t (Some id) d q Hcl Hin Hq).
  - intros [= <- <-]. unfold keys_unique. cbn [users blog_posts comments].
    rewrite orphan_ids. repeat split; try assumption;
      now apply NoDup_map_filter.
Qed.

(** X7: the keys stay keys: when no two users share an id or an email, no two
    posts an id or a title, and no two comments an id, the same holds after
    any sequence of requests. *)
Theorem keys_stay_unique (cs : list Call) (w : World) :
  keys_unique (db w) -> keys_unique (db (run iterations cs w)).
Proof.
  apply (run_keeps (fun d d' => keys_unique d -> keys_unique d')).
  - auto.
  - auto.
  - exact apply_change_keys.
Qed.

(** *** The login *)

(** The id of the login cookie is the id of a row of [users]. *)
Definition session_valid (w : World) : bool :=
  match login_id w with
  | Some id => has_user (db w) id
  | None => true
  end.

Lemma has_user_extends (d d' : Database) (id : nat) :
  extends (users d) (users d') ->
  has_user d id = true -> has_user d' id = true.
Proof.
  unfold has_user. intros [more ->] H. now rewrite existsb_app, H.
Qed.

Lemma has_user_In (d : Database) (u : User) :
  In u (users d) -> has_user d (user_id u) = true.
Proof.
  intros Hin. unfold has_user. apply existsb_exists.
  exists u. split; [exact Hin | apply Nat.eqb_refl].
Qed.

(** After a request the login is the one before, or none, or a user of the
    database. *)
Lemma serve_login (c : Call) (w : World) :
  login_id (snd (serve iterations c w)) = login_id w
  \/ login_id (snd (serve iterations c w)) = None
  \/ exists u, In u (users (db (snd (serve iterations c w))))
               /\ login_id (snd (serve iterations c w)) = Some (user_id u).
Proof.
  destruct w as [d l m].
  destruct c as [|req salt|req| |id req| | |req today|id req|id];
    try (left; reflexivity).
  - run_view. destruct req as [|form [|]]; cbn; try (left; reflexivity).
    destruct (User_by_email _ _); cbn; [left; reflexivity|].
    destruct (Security.generate_password_hash _ _ _ _) as [h|];
      cbn; [|left; reflexivity].
    destruct (email_taken _ _); cbn; [left; reflexivity|].
    right. right.
    exists (mkUser (next_id (map user_id (users d))) (register_email form) h
                   (register_name form)).
    split; [|reflexivity]. apply in_or_app. right. left. reflexivity.
  - run_view. destruct req as [|form [|]]; cbn; try (left; reflexivity).
    destruct (User_by_email _ _) as [u|] eqn:Hu; cbn; [|left; reflexivity].
    destruct (Security.check_password_hash _ _ _) as [[|]|];
      try (left; reflexivity).
    right. right. exists u. split; [|reflexivity].
    unfold User_by_email in Hu. apply find_some in Hu. apply Hu.
  - right. left. reflexivity.
  - run_view.
    destruct (BlogPost_get id d) as [p|];
      [|destruct (sqlite_integer id); [|left; reflexivity]];
      (destruct req as [|form [|]]; cbn -[flush]; try (left; reflexivity);
       destruct (current_user_of _) as [|u]; cbn -[flush];
       [left; reflexivity|];
       destruct (flush _ _) as [[d' ks]|e]; [|destruct e]; left; reflexivity).
  - unfold serve, route, add_new_post.
    destruct (is_admin (mkWorld d l m)) eqn:Hadm.
    2:{ left. now rewrite admin_only_rejects. }
    rewrite admin_only_enters by assumption.
    run_view. destruct req as [|form [|]]; cbn -[flush strftime_B_d_Y];
      try (left; reflexivity).
    destruct (current_user_of _) as [|u]; cbn -[flush strftime_B_d_Y];
      [left; reflexivity|].
    destruct (flush _ _) as [[d' ks]|e]; [|destruct e]; left; reflexivity.
  - unfold serve, route, edit_post.
    destruct (is_admin (mkWorld d l m)) eqn:Hadm.
    2:{ left. now rewrite admin_only_rejects. }
    rewrite admin_only_enters by assumption.
    run_view. destruct (BlogPost_get id d);
      [|destruct (sqlite_integer id); left; reflexivity].
    destruct req as [|form [|]]; cbn -[flush]; try (left; reflexivity).
    destruct (form_author form) as [[|s|u]|]; cbn -[flush];
      try (left; reflexivity);
      (destruct (flush _ _) as [[d' ks]|e]; [|destruct e]; left; reflexivity).
  - run_view. destruct (BlogPost_get id d);
      [|destruct (sqlite_integer id); left; reflexivity].
    cbn -[flush].
    destruct (flush _ _) as [[d' ks]|e]; [|destruct e]; left; reflexivity.
Qed.

Lemma serve_session (c : Call) (w : World) :
  session_valid w = true -> session_valid (snd (serve iterations c w)) = true.
Proof.
  intros Hv. unfold session_valid in *.
  destruct (serve_login c w) as [H|[H|(u & Hin & H)]]; rewrite H.
  - destruct (login_id w) as [id|]; [|reflexivity].
    apply (has_user_extends (db w)); [|exact Hv].
    apply (serve_keeps (fun d d' => extends (users d) (users d'))).
    + intros d. apply extends_refl.
    + intros a b c'. apply extends_trans.
    + exact apply_change_users.
  - reflexivity.
  - now apply has_user_In.
Qed.

(** X8: the login never dangles: when the id of the login cookie is that of a
    user, it still is after any sequence of requests, so whoever logged in
    and did not log out is [current_user]. *)
Theorem session_names_a_user (cs : list Call) (w : World) :
  session_valid w = true -> session_valid (run iterations cs w) = true.
Proof.
  revert w. induction cs as [|c cs IH]; intros w Hv; cbn [run].
  - exact Hv.
  - apply IH. now apply serve_session.
Qed.

End Tables.

(** * Requests that go through *)

Section Journeys.

Import Security.
Local Open Scope string_scope.

Variable iterations : N.

(** A row added with a key no row has is the one a lookup by that key
    finds. *)
Lemma find_snoc_fresh {A : Type} (key : A -> nat) (l : list A) (x : A) :
  (forall y, In y l -> key y <> key x) ->
  find (fun y => Nat.eqb (key y) (key x)) (l ++ [x]) = Some x.
Proof.
  induction l as [|a l IH]; cbn; intros H.
  - now rewrite Nat.eqb_refl.
  - destruct (Nat.eqb (key a) (key x)) eqn:E.
    + apply Nat.eqb_eq in E. exfalso. apply (H a); auto.
    + apply IH. auto.
Qed.

Lemma find_snoc_next {A : Type} (key : A -> nat) (l : list A) (x : A) :
  key x = next_id (map key l) ->
  find (fun y => Nat.eqb (key y) (key x)) (l ++ [x]) = Some x.
Proof.
  intros Hx. apply find_snoc_fresh. intros y Hin Hy.
  apply (next_id_fresh (map key l)). rewrite <- Hx, <- Hy. now apply in_map.
Qed.

Lemma current_user_registered (w : World) (form : RegisterForm)
    (salt : string) :
  current_user_of (registered iterations w form salt)
  = LoggedIn (new_user iterations (db w) form salt).
Proof.
  unfold current_user_of, registered, load_user, User_get.
  cbn [login_id db users].
  now rewrite (find_snoc_next user_id (users (db w))
                 (new_user iterations (db w) form salt) eq_refl).
Qed.

Lemma is_admin_user (w : World) :
  is_admin w = true ->
  exists u, current_user_of w = LoggedIn u /\ user_id u = 1.
Proof.
  unfold is_admin. destruct (current_user_of w) as [|u]; [discriminate|].
  intros H. exists u. split; [reflexivity | now apply Nat.eqb_eq].
Qed.

(** X9: who registers is logged in as the new account: after a registration
    with an email no user has, [current_user] is the row just stored, whose
    id no other user has, and a lookup by the email finds it. *)
Theorem register_logs_in (w : World) (form : RegisterForm) (salt : string) :
  (0 < iterations)%N -> is_salt salt = true ->
  User_by_email (register_email form) (db w) = None ->
  let w' := snd (serve iterations (CallRegister (POST form true) salt) w) in
  current_user_of w' = LoggedIn (new_user iterations (db w) form salt)
  /\ User_by_email (register_email form) (db w')
     = Some (new_user iterations (db w) form salt)
  /\ has_user (db w) (user_id (new_user iterations (db w) form salt)) = false.
Proof.
  intros Hit Hsalt Hnone w'. subst w'. rewrite register_new by assumption.
  cbn [snd]. split; [apply current_user_registered|]. split.
  - unfold registered. cbn [db]. destruct (db w) as [us ps cs].
    cbn [users blog_posts comments].
    apply User_by_email_new; [exact Hnone | reflexivity].
  - unfold has_user. destruct (existsb _ _) eqn:E; [|reflexivity].
    apply existsb_exists in E. destruct E as (u & Hin & Hu).
    apply Nat.eqb_eq in Hu. exfalso.
    apply (next_id_fresh (map user_id (users (db w)))).
    cbn [new_user user_id] in Hu. rewrite <- Hu. now apply in_map.
Qed.

(** X10: the administrator is whoever registers first: a registration into an
    empty table of users gives id 1, which [admin_only] lets in; once a
    user 1 exists, nobody who registers is let in. *)
Theorem first_registrant_is_administrator (w : World) (form : RegisterForm)
    (salt : string) :
  (0 < iterations)%N -> is_salt salt = true ->
  User_by_email (register_email form) (db w) = None ->
  let w' := snd (serve iterations (CallRegister (POST form true) salt) w) in
  (users (db w) = [] -> is_admin w' = true)
  /\ (has_user (db w) 1 = true -> is_admin w' = false).
Proof.
  intros Hit Hsalt Hnone w'. subst w'. rewrite register_new by assumption.
  cbn [snd]. unfold is_admin. rewrite current_user_registered.
  cbn [new_user user_id]. split.
  - intros ->. reflexivity.
  - intros H. apply Nat.eqb_neq. unfold has_user in H.
    apply existsb_exists in H. destruct H as (u & Hin & Hu).
    apply Nat.eqb_eq in Hu.
    assert (Hle : Forall (fun k => k <= list_max (map user_id (users (db w))))
                         (map user_id (users (db w))))
      by (apply list_max_le; apply Nat.le_refl).
    rewrite Forall_forall in Hle. specialize (Hle (user_id u) (in_map _ _ _ Hin)).
    unfold next_id. lia.
Qed.

(** X11: a reply of [add_new_post] or [edit_post] that is a page or a redirect
    went to the administrator: nobody else gets a response of these
    views. *)
Theorem only_admin_passes_gate (c : Call) (w : World) (r : Response) :
  match c with CallNewPost _ _ | CallEditPost _ _ => True | _ => False end ->
  fst (serve iterations c w) = Normal r ->
  is_admin w = true.
Proof.
  intros Hc. destruct (is_admin w) eqn:Hadm; [reflexivity|].
  destruct c; try contradiction; unfold serve, route, add_new_post, edit_post;
    rewrite admin_only_rejects by assumption;
    destruct (current_user_of w); discriminate.
Qed.

(** *** Posts *)

(** X12: the administrator's new post, under a title no post has, is stored at
    the end of [blog_posts] with the fields of the form, the administrator
    as its author and the date of the day; the index lists it, and it is
    found under its id. *)
Theorem new_post_is_published (w : World) (form : CreatePostForm)
    (today : Date) :
  is_admin w = true ->
  title_taken (form_title form) None (db w) = false ->
  let p := mkBlogPost (next_id (map post_id (blog_posts (db w)))) (Some 1)
                      (form_title form) (form_subtitle form)
                      (strftime_B_d_Y today) (form_body form)
                      (form_img_url form) in
  let w' := mkWorld (mkDatabase (users (db w)) (blog_posts (db w) ++ [p])
                                (comments (db w)))
                    (login_id w) (flashed w) in
  serve iterations (CallNewPost (POST form true) today) w
  = (Normal (Redirect "get_all_posts" None), w')
  /\ serve iterations CallIndex w'
     = (Normal (Render "index.html" (AllPosts (blog_posts (db w) ++ [p]))), w')
  /\ BlogPost_get (post_id p) (db w') = Some p.
Proof.
  intros Hadm Ht p w'. split; [|split].
  - unfold serve, route, add_new_post. rewrite admin_only_enters by assumption.
    destruct (is_admin_user _ Hadm) as (u & Hcu & Hu).
    run_view. rewrite Hcu.
    cbn -[title_taken strftime_B_d_Y]. rewrite Ht, Hu. reflexivity.
  - reflexivity.
  - unfold BlogPost_get. subst w'. cbn [db blog_posts].
    apply (find_snoc_next post_id). reflexivity.
Qed.

(** Setting attributes of the posts with one id moves no title of another
    post. *)
Lemma title_taken_update (t : string) (id : nat) (a : PostAttr)
    (us : list User) (ps : list BlogPost) (cs : list Comment) :
  title_taken t (Some id)
    (mkDatabase us (map (fun q => if Nat.eqb (post_id q) id then set_attr a q
                                  else q) ps) cs)
  = title_taken t (Some id) (mkDatabase us ps cs).
Proof.
  unfold title_taken. cbn [blog_posts].
  induction ps as [|q ps IH]; cbn [map existsb]; [reflexivity|].
  rewrite IH. f_equal.
  destruct (Nat.eqb (post_id q) id) eqn:Hq; [|now rewrite Hq].
  rewrite set_attr_id, Hq. cbn. now rewrite !Bool.andb_false_r.
Qed.

(** A flush of attributes set on a post that exists goes through when no
    other post has the titles it sets. *)
Lemma flush_updates_ok (id : nat) (attrs : list PostAttr) :
  forall (d : Database) (p : BlogPost),
    BlogPost_get id d = Some p ->
    (forall t, In (Title t) attrs -> title_taken t (Some id) d = false) ->
    exists d', flush (map (UpdatePost id) attrs) d = Ok (d', []).
Proof.
  induction attrs as [|a attrs IH]; intros d p Hget Hfree; cbn [map flush].
  - now exists d.
  - unfold apply_change. rewrite Hget.
    assert (Hcl : match a with
                  | Title t => title_taken t (Some id) d
                  | _ => false
                  end = false).
    { destruct a; try reflexivity. apply Hfree. now left. }
    rewrite Hcl. destruct d as [us ps cs]. cbn [users blog_posts comments].
    destruct (IH (mkDatabase us
                    (map (fun q => if Nat.eqb (post_id q) id then set_attr a q
                                   else q) ps) cs)
                 (set_attr a p)) as [d' Hd'].
    + apply (BlogPost_get_map id (set_attr a)); [apply set_attr_id | exact Hget].
    + intros t Hin. rewrite title_taken_update. apply Hfree. now right.
    + exists d'. now rewrite Hd'.
Qed.

(** X13: the administrator's edit goes through: for a post that exists, an
    author that is a user or [None], and a title no other post has, the
    reply is the redirect to the page of the post. *)
Theorem edit_post_goes_through (w : World) (id : nat) (p : BlogPost)
    (form : CreatePostForm) (author : option User) :
  is_admin w = true ->
  BlogPost_get id (db w) = Some p ->
  form_author form
  = Some (match author with Some u => PyUser u | None => PyNone end) ->
  title_taken (form_title form) (Some id) (db w) = false ->
  fst (serve iterations (CallEditPost id (POST form true)) w)
  = Normal (Redirect "show_post" (Some id)).
Proof.
  intros Hadm Hget Hau Ht. unfold serve, route, edit_post.
  rewrite admin_only_enters by assumption.
  destruct (BlogPost_get_some _ _ _ Hget) as [_ Hid].
  destruct (flush_updates_ok id
              [Title (form_title form); Subtitle (form_subtitle form);
               ImgUrl (form_img_url form); Author author;
               Body (form_body form)] (db w) p Hget) as [d' Hd'].
  { intros t [H|[H|[H|[H|[H|[]]]]]]; try discriminate.
    injection H as <-. exact Ht. }
  cbn [map] in Hd'.
  run_view. rewrite Hget, Hau, Hid.
  destruct author as [u|]; cbn -[flush]; rewrite Hd'; reflexivity.
Qed.

(** X14: an edit that gives a post the title of another post ends in the server
    error of the [IntegrityError] of the unique constraint, and none of the
    five fields is written. *)
Theorem edit_to_taken_title_faults (w : World) (id : nat) (p q : BlogPost)
    (form : CreatePostForm) (author : option User) :
  is_admin w = true ->
  BlogPost_get id (db w) = Some p ->
  form_author form
  = Some (match author with Some u => PyUser u | None => PyNone end) ->
  In q (blog_posts (db w)) -> post_id q <> id ->
  post_title q = form_title form ->
  serve iterations (CallEditPost id (POST form true)) w
  = (Fault (IntegrityError "blog_posts.title"), w).
Proof.
  intros Hadm Hget Hau Hin Hq Ht. unfold serve, route, edit_post.
  rewrite admin_only_enters by assumption.
  destruct (BlogPost_get_some _ _ _ Hget) as [_ Hid].
  assert (Hcl : title_taken (form_title form) (Some id) (db w) = true).
  { unfold title_taken. apply existsb_exists. exists q. split; [exact Hin|].
    rewrite Ht, String.eqb_refl. apply Nat.eqb_neq in Hq. now rewrite Hq. }
  run_view. rewrite Hget, Hau, Hid.
  destruct w as [d l m]. cbn [db] in *.
  destruct author as [u|]; cbn -[flush]; cbn [flush]; unfold apply_change;
    rewrite Hget, Hcl; reflexivity.
Qed.

(** X15: deleting a post deletes none of its comments: each stays, with its
    author and text, and its post set to NULL, so that no comment refers to
    the deleted id; the users are as they were. *)
Theorem delete_post_orphans_comments (w : World) (id : nat) (p : BlogPost) :
  BlogPost_get id (db w) = Some p ->
  let w' := snd (serve iterations (CallDelete id) w) in
  comments (db w') = map (orphan id) (comments (db w))
  /\ users (db w') = users (db w)
  /\ forall c, In c (comments (db w')) -> comment_post_id c <> Some id.
Proof.
  intros Hget w'. subst w'. destruct (BlogPost_get_some _ _ _ Hget) as [_ Hid].
  run_view. rewrite Hget. cbn. rewrite Hid.
  split; [reflexivity|]. split; [reflexivity|].
  intros c Hin. apply in_map_iff in Hin. destruct Hin as (c0 & <- & _).
  unfold orphan. destruct (comment_post_id c0) as [k|] eqn:Hk.
  - destruct (Nat.eqb k id) eqn:E; cbn [comment_post_id]; [discriminate|].
    rewrite Hk. apply Nat.eqb_neq in E. congruence.
  - rewrite Hk. discriminate.
Qed.

(** *** Comments *)

(** X16: a comment of a logged-in user on a post that exists is stored at
    the end of [comments] with the text of the form, the user as its author
    and that post as its post; the page of the post comes back with every
    comment of the database, the new one last, and so does the page of any
    post that exists afterwards. *)
Theorem comment_is_stored_and_shown (w : World) (u : User) (id other : nat)
    (p q : BlogPost) (form : CommentForm) :
  current_user_of w = LoggedIn u ->
  BlogPost_get id (db w) = Some p ->
  BlogPost_get other (db w) = Some q ->
  let c := mkComment (next_id (map comment_id (comments (db w))))
                     (comment_body form) (Some (user_id u)) (Some id) in
  let w' := mkWorld (mkDatabase (users (db w)) (blog_posts (db w))
                                (comments (db w) ++ [c]))
                    (login_id w) (flashed w) in
  serve iterations (CallShowPost id (POST form true)) w
  = (Normal (Render "post.html" (PostPage (Some p) (comments (db w) ++ [c]))),
     w')
  /\ serve iterations (CallShowPost other GET) w'
     = (Normal (Render "post.html" (PostPage (Some q) (comments (db w) ++ [c]))),
        w').
Proof.
  intros Hcu Hp Hq c w'. destruct (BlogPost_get_some _ _ _ Hp) as [_ Hid].
  split.
  - run_view. rewrite Hp. cbn. rewrite Hcu. cbn. rewrite Hid. reflexivity.
  - run_view. unfold BlogPost_get in Hq. rewrite Hq. reflexivity.
Qed.

(** *** Login *)

(** X17: nobody is logged in without a password that verifies: when [login]
    answers with the redirect to the index, the request submitted a form,
    a user has the email of the form, [check_password_hash] accepted the
    password of the form for the hash stored with that user, and it is
    that user who is logged in. *)
Theorem login_needs_verified_password (w w' : World) (req : Request LoginForm) :
  serve iterations (CallLogin req) w
  = (Normal (Redirect "get_all_posts" None), w') ->
  exists form u,
    req = POST form true
    /\ User_by_email (login_email form) (db w) = Some u
    /\ check_password_hash iterations (user_password u) (login_password form)
       = Some true
    /\ w' = mkWorld (db w) (Some (user_id u)) (flashed w).
Proof.
  run_view. destruct req as [|form [|]]; cbn; try discriminate.
  destruct (User_by_email _ _) as [u|] eqn:Hu; cbn; [|discriminate].
  destruct (check_password_hash _ _ _) as [[|]|] eqn:Hc; try discriminate.
  intros [= <-]. exists form, u. repeat split; assumption.
Qed.

(** X18: a login that is refused changes neither the database nor who is logged
    in: a user who tries another account with a wrong password, or an email
    nobody has, stays who they were. *)
Theorem login_refusal_keeps_session (w : World) (req : Request LoginForm) :
  fst (serve iterations (CallLogin req) w)
  <> Normal (Redirect "get_all_posts" None) ->
  login_id (snd (serve iterations (CallLogin req) w)) = login_id w
  /\ db (snd (serve iterations (CallLogin req) w)) = db w.
Proof.
  run_view. destruct req as [|form [|]]; cbn; try (split; reflexivity).
  destruct (User_by_email _ _) as [u|]; cbn; [|split; reflexivity].
  destruct (check_password_hash _ _ _) as [[|]|]; cbn;
    try (split; reflexivity).
  intros H. now contradiction H.
Qed.

(** X19: a password stored under one count of iterations still logs in after
    the default of the library has changed: the stored hash names its own
    count, and [check_password_hash] uses that one. *)
Theorem login_survives_upgrade (later : N) (w w2 : World)
    (form : RegisterForm) (salt : string) :
  (0 < iterations)%N -> is_salt salt = true ->
  User_by_email (register_email form) (db w) = None ->
  db w2 = db (snd (serve iterations (CallRegister (POST form true) salt) w)) ->
  serve later
    (CallLogin (POST (mkLoginForm (register_email form)
                                  (register_password form)) true)) w2
  = (Normal (Redirect "get_all_posts" None),
     mkWorld (db w2) (Some (user_id (new_user iterations (db w) form salt)))
             (flashed w2)).
Proof.
  intros Hit Hsalt Hnone Hdb. destruct (is_salt_facts _ Hsalt) as [Hne Hcount].
  rewrite register_new in Hdb by assumption. cbn [snd registered db] in Hdb.
  assert (Hu : User_by_email (register_email form) (db w2)
               = Some (new_user iterations (db w) form salt)).
  { rewrite Hdb. destruct (db w) as [us ps cs].
    cbn [users blog_posts comments].
    apply User_by_email_new; [exact Hnone | reflexivity]. }
  run_view. rewrite Hu. cbn [new_user user_password user_id].
  rewrite check_stored by assumption. now rewrite String.eqb_refl.
Qed.

End Journeys.

(** * More worked requests

    The properties above at the worlds of [history]. *)

Section Visits.

Import Security.
Local Open Scope string_scope.

(** The count of iterations of werkzeug 2.3. *)
Definition later_iterations : N := 600000.

Definition fresh_form : CreatePostForm :=
  mkCreatePostForm "T9" "ninth" "http://i/9.png" None "words".

Definition clash_form : CreatePostForm :=
  mkCreatePostForm "T1" "second" "http://i/2.png" (Some PyNone) "text".

Definition admin_login : LoginForm := mkLoginForm "admin@x.com" "s3cret".

Definition stranger_login : LoginForm := mkLoginForm "nobody@x.com" "guess".

Lemma visitor_is_forbidden :
  current_user_of as_visitor = LoggedIn visitor
  /\ user_id visitor <> 1
  /\ serve default_iterations (CallNewPost (POST fresh_form true) today)
           as_visitor
     = (Aborted 403, as_visitor)
  /\ serve default_iterations (CallEditPost 1 (POST fresh_form true)) as_visitor
     = (Aborted 403, as_visitor).
Proof.
  split; [reflexivity|]. split; [intros H; lazy in H; discriminate|].
  apply (non_admin_forbidden default_iterations as_visitor visitor
           (POST fresh_form true) today 1);
    [reflexivity | intros H; lazy in H; discriminate].
Defined.

Lemma delete_post_9_changes_nothing :
  succeeded (fst (serve default_iterations (CallDelete 9) logged_out)) = false
  /\ snd (serve default_iterations (CallDelete 9) logged_out) = logged_out.
Proof.
  split; [eval_request|].
  apply (failed_request_changes_nothing default_iterations (CallDelete 9)
           logged_out).
  eval_request.
Defined.

Lemma reading_post_1_changes_nothing :
  reads_only (CallShowPost 1 GET) = true
  /\ snd (serve default_iterations (CallShowPost 1 GET) as_visitor)
     = as_visitor.
Proof.
  split; [reflexivity|].
  apply (read_requests_change_nothing default_iterations (CallShowPost 1 GET)
           as_visitor).
  reflexivity.
Defined.

Lemma comment_writes_no_post :
  may_write_posts (CallShowPost 1 (POST (mkCommentForm "hi") true)) as_visitor
  = false
  /\ blog_posts
       (db (snd (serve default_iterations
                   (CallShowPost 1 (POST (mkCommentForm "hi") true))
                   as_visitor)))
     = blog_posts (db as_visitor).
Proof.
  split; [reflexivity|].
  apply (posts_written_only_by_admin_or_delete default_iterations
           (CallShowPost 1 (POST (mkCommentForm "hi") true)) as_visitor).
  reflexivity.
Defined.

Lemma keys_unique_after_history :
  keys_unique (db empty_world)
  /\ keys_unique (db (run default_iterations history empty_world)).
Proof.
  assert (H : keys_unique (db empty_world)) by (repeat split; constructor).
  split; [exact H|].
  apply (keys_stay_unique default_iterations history empty_world). exact H.
Defined.

Lemma session_valid_after_history :
  session_valid empty_world = true
  /\ session_valid (run default_iterations history empty_world) = true.
Proof.
  split; [reflexivity|].
  apply (session_names_a_user default_iterations history empty_world).
  reflexivity.
Defined.

Lemma register_logs_in_admin :
  (0 < default_iterations)%N
  /\ is_salt "abcd1234" = true
  /\ User_by_email (register_email admin_form) (db empty_world) = None
  /\ let w' := snd (serve default_iterations
                      (CallRegister (POST admin_form true) "abcd1234")
                      empty_world) in
     current_user_of w'
     = LoggedIn (new_user default_iterations (db empty_world) admin_form
                          "abcd1234")
     /\ User_by_email (register_email admin_form) (db w')
        = Some (new_user default_iterations (db empty_world) admin_form
                         "abcd1234")
     /\ has_user (db empty_world)
          (user_id (new_user default_iterations (db empty_world) admin_form
                             "abcd1234"))
        = false.
Proof.
  split; [reflexivity|]. split; [reflexivity|]. split; [reflexivity|].
  apply (register_logs_in default_iterations empty_world admin_form
           "abcd1234"); reflexivity.
Defined.

Lemma first_registrant_admin :
  (0 < default_iterations)%N
  /\ is_salt "abcd1234" = true
  /\ User_by_email (register_email admin_form) (db empty_world) = None
  /\ let w' := snd (serve default_iterations
                      (CallRegister (POST admin_form true) "abcd1234")
                      empty_world) in
     (users (db empty_world) = [] -> is_admin w' = true)
     /\ (has_user (db empty_world) 1 = true -> is_admin w' = false).
Proof.
  split; [reflexivity|]. split; [reflexivity|]. split; [reflexivity|].
  apply (first_registrant_is_administrator default_iterations empty_world
           admin_form "abcd1234"); reflexivity.
Defined.

Lemma admin_passes_gate :
  match CallNewPost (@GET CreatePostForm) today with
  | CallNewPost _ _ | CallEditPost _ _ => True
  | _ => False
  end
  /\ fst (serve default_iterations (CallNewPost GET today) as_admin)
     = Normal (Render "make-post.html" WithForm)
  /\ is_admin as_admin = true.
Proof.
  split; [exact I|]. split; [eval_request|].
  apply (only_admin_passes_gate default_iterations (CallNewPost GET today)
           as_admin (Render "make-post.html" WithForm)); [exact I|].
  eval_request.
Defined.

Lemma publish_T9 :
  is_admin as_admin = true
  /\ title_taken (form_title fresh_form) None (db as_admin) = false
  /\ let p := mkBlogPost (next_id (map post_id (blog_posts (db as_admin))))
                         (Some 1) (form_title fresh_form)
                         (form_subtitle fresh_form) (strftime_B_d_Y today)
                         (form_body fresh_form) (form_img_url fresh_form) in
     let w' := mkWorld (mkDatabase (users (db as_admin))
                                   (blog_posts (db as_admin) ++ [p])
                                   (comments (db as_admin)))
                       (login_id as_admin) (flashed as_admin) in
     serve default_iterations (CallNewPost (POST fresh_form true) today)
           as_admin
     = (Normal (Redirect "get_all_posts" None), w')
     /\ serve default_iterations CallIndex w'
        = (Normal (Render "index.html"
                     (AllPosts (blog_posts (db as_admin) ++ [p]))), w')
     /\ BlogPost_get (post_id p) (db w') = Some p.
Proof.
  split; [reflexivity|]. split; [reflexivity|].
  apply (new_post_is_published default_iterations as_admin fresh_form today);
    reflexivity.
Defined.

Lemma edit_second_post_goes_through :
  is_admin as_admin = true
  /\ BlogPost_get 2 (db as_admin) = Some second_post
  /\ form_author edit_form = Some (PyUser visitor)
  /\ title_taken (form_title edit_form) (Some 2) (db as_admin) = false
  /\ fst (serve default_iterations (CallEditPost 2 (POST edit_form true))
                as_admin)
     = Normal (Redirect "show_post" (Some 2)).
Proof.
  split; [reflexivity|]. split; [reflexivity|]. split; [reflexivity|].
  split; [reflexivity|].
  apply (edit_post_goes_through default_iterations as_admin 2 second_post
           edit_form (Some visitor)); reflexivity.
Defined.

Lemma edit_second_post_to_T1 :
  is_admin as_admin = true
  /\ BlogPost_get 2 (db as_admin) = Some second_post
  /\ form_author clash_form = Some PyNone
  /\ In first_post (blog_posts (db as_admin))
  /\ post_id first_post <> 2
  /\ post_title first_post = form_title clash_form
  /\ serve default_iterations (CallEditPost 2 (POST clash_form true)) as_admin
     = (Fault (IntegrityError "blog_posts.title"), as_admin).
Proof.
  split; [reflexivity|]. split; [reflexivity|]. split; [reflexivity|].
  split; [left; reflexivity|]. split; [discriminate|]. split; [reflexivity|].
  apply (edit_to_taken_title_faults default_iterations as_admin 2 second_post
           first_post clash_form None);
    [reflexivity | reflexivity | reflexivity | left; reflexivity
     | discriminate | reflexivity].
Defined.

Lemma delete_first_post_orphans :
  BlogPost_get 1 (db logged_out) = Some first_post
  /\ let w' := snd (serve default_iterations (CallDelete 1) logged_out) in
     comments (db w') = map (orphan 1) (comments (db logged_out))
     /\ users (db w') = users (db logged_out)
     /\ forall c, In c (comments (db w')) -> comment_post_id c <> Some 1.
Proof.
  split; [reflexivity|].
  apply (delete_post_orphans_comments default_iterations logged_out 1
           first_post).
  reflexivity.
Defined.

Lemma visitor_comments_again :
  current_user_of as_visitor = LoggedIn visitor
  /\ BlogPost_get 1 (db as_visitor) = Some first_post
  /\ BlogPost_get 2 (db as_visitor) = Some second_post
  /\ let c := mkComment (next_id (map comment_id (comments (db as_visitor))))
                        (comment_body (mkCommentForm "hi"))
                        (Some (user_id visitor)) (Some 1) in
     let w' := mkWorld (mkDatabase (users (db as_visitor))
                                   (blog_posts (db as_visitor))
                                   (comments (db as_visitor) ++ [c]))
                       (login_id as_visitor) (flashed as_visitor) in
     serve default_iterations
           (CallShowPost 1 (POST (mkCommentForm "hi") true)) as_visitor
     = (Normal (Render "post.html"
                  (PostPage (Some first_post)
                            (comments (db as_visitor) ++ [c]))),
        w')
     /\ serve default_iterations (CallShowPost 2 GET) w'
        = (Normal (Render "post.html"
                     (PostPage (Some second_post)
                               (comments (db as_visitor) ++ [c]))),
           w').
Proof.
  split; [reflexivity|]. split; [reflexivity|]. split; [reflexivity|].
  apply (comment_is_stored_and_shown default_iterations as_visitor visitor 1 2
           first_post second_post (mkCommentForm "hi")); reflexivity.
Defined.

Lemma admin_logs_in :
  serve default_iterations (CallLogin (POST admin_login true)) just_admin
  = (Normal (Redirect "get_all_posts" None),
     mkWorld (db just_admin) (Some 1) []).
Proof.
  rewrite (login_compares_digests default_iterations just_admin admin
             admin_login "abcd1234" "s3cret") by reflexivity.
  cbn [login_password admin_login]. now rewrite String.eqb_refl.
Qed.

Lemma admin_login_was_verified :
  serve default_iterations (CallLogin (POST admin_login true)) just_admin
  = (Normal (Redirect "get_all_posts" None),
     mkWorld (db just_admin) (Some 1) [])
  /\ exists form u,
       POST admin_login true = POST form true
       /\ User_by_email (login_email form) (db just_admin) = Some u
       /\ check_password_hash default_iterations (user_password u)
            (login_password form)
          = Some true
       /\ mkWorld (db just_admin) (Some 1) []
          = mkWorld (db just_admin) (Some (user_id u)) (flashed just_admin).
Proof.
  split; [exact admin_logs_in|].
  apply (login_needs_verified_password default_iterations just_admin
           (mkWorld (db just_admin) (Some 1) []) (POST admin_login true)).
  exact admin_logs_in.
Defined.

Lemma stranger_stays_logged_out :
  fst (serve default_iterations (CallLogin (POST stranger_login true))
             as_visitor)
  <> Normal (Redirect "get_all_posts" None)
  /\ login_id (snd (serve default_iterations
                      (CallLogin (POST stranger_login true)) as_visitor))
     = login_id as_visitor
  /\ db (snd (serve default_iterations
                (CallLogin (POST stranger_login true)) as_visitor))
     = db as_visitor.
Proof.
  assert (H : fst (serve default_iterations
                     (CallLogin (POST stranger_login true)) as_visitor)
              = Normal (Render "login.html" NoArgs)) by eval_request.
  split; [rewrite H; discriminate|].
  apply (login_refusal_keeps_session default_iterations as_visitor
           (POST stranger_login true)).
  rewrite H. discriminate.
Defined.

Lemma admin_logs_in_after_upgrade :
  (0 < default_iterations)%N
  /\ is_salt "abcd1234" = true
  /\ User_by_email (register_email admin_form) (db empty_world) = None
  /\ db just_admin
     = db (snd (serve default_iterations
                  (CallRegister (POST admin_form true) "abcd1234") empty_world))
  /\ serve later_iterations
       (CallLogin (POST (mkLoginForm (register_email admin_form)
                                     (register_password admin_form)) true))
       just_admin
     = (Normal (Redirect "get_all_posts" None),
        mkWorld (db just_admin)
                (Some (user_id (new_user default_iterations (db empty_world)
                                         admin_form "abcd1234")))
                (flashed just_admin)).
Proof.
  assert (Hdb : db just_admin
                = db (snd (serve default_iterations
                             (CallRegister (POST admin_form true) "abcd1234")
                             empty_world))).
  { rewrite register_admin. reflexivity. }
  split; [reflexivity|]. split; [reflexivity|]. split; [reflexivity|].
  split; [exact Hdb|].
  apply (login_survives_upgrade default_iterations later_iterations empty_world
           just_admin admin_form "abcd1234");
    [reflexivity | reflexivity | reflexivity | exact Hdb].
Defined.

End Visits.
